(** * The Ollama settings panel (src/components/OllamaSettings.tsx)

    A shallow embedding of the React component [OllamaSettings] and of the
    part of JavaScript it relies on, followed by the properties of the
    settings-synchronisation contract between the panel and its owner.

    - [JS]: IEEE doubles, [Number(string)], JavaScript values, truthiness,
      property access and exceptions.
    - [Panel]: the settings record, the store of settings objects, the
      hook state, the three effects, the event handlers, the animation
      frame queue and the log of the calls the owner receives.

    Settings objects are kept in a store and passed by location, so that
    what [Object.is] compares (the dependency [initialSettings], the
    argument of [onSettingsSave]) is distinct from what an object
    holds.  The component never writes to an object it has; every
    update allocates.

    React is followed commit by commit.  A step of a run is an event of
    the user, the end of [fetchModels], a render by the owner, or an
    animation frame.  The state updates of one step are applied
    together, the panel is rendered once with the props in force, and
    the effects whose dependencies differ from the previous render run
    in the order of the source, before the next step; when an effect
    sets the state, the render that this causes belongs to the same
    step. *)

From stdpp Require Import base option list strings gmap.
From Stdlib Require Import ZArith Bool Ascii String List Lia.
From Stdlib Require DecimalString DecimalNat DecimalFacts.
Import ListNotations.

#[local] Open Scope Z_scope.

(* ===================================================================== *)
(** * JavaScript                                                          *)
(* ===================================================================== *)
Module JS.

(** ** Numbers

    A JavaScript number is an IEEE 754 binary64 value.  [Finite s m e]
    denotes [(-1)^s * m * 2^e] with [0 <= m < 2^53] and
    [-1074 <= e <= 971]; the representation is canonical ([2^52 <= m]
    unless [e = -1074]), so that equality of terms is [Object.is]. *)
Inductive number : Type :=
| NaN
| Infinity (negative : bool)
| Finite (negative : bool) (m : Z) (e : Z).

Definition number_eqb (a b : number) : bool :=
  match a, b with
  | NaN, NaN => true
  | Infinity s, Infinity t => Bool.eqb s t
  | Finite s m e, Finite t n f => Bool.eqb s t && (m =? n) && (e =? f)
  | _, _ => false
  end.

(** Division of [n] by [d], rounded to nearest, ties to even. *)
Definition round_half_even (n d : Z) : Z :=
  let q := n / d in
  let r := n mod d in
  match (2 * r) ?= d with
  | Lt => q
  | Gt => q + 1
  | Eq => if Z.even q then q else q + 1
  end.

(** The fraction [(n/d) / 2^e] as a pair of integers. *)
Definition scaled (n d e : Z) : Z * Z :=
  if 0 <=? e then (n, d * 2 ^ e) else (n * 2 ^ (- e), d).

(** The double nearest to the rational [n/d] ([0 <= n], [0 < d]), with
    the sign [negative]: the rounding applied to every numeric literal
    and to the result of [Number]. *)
Definition to_double (negative : bool) (n d : Z) : number :=
  if n =? 0 then Finite negative 0 (-1074)
  else
    let a := Z.log2 n - Z.log2 d in
    let e0 := a - 52 in
    let '(n0, d0) := scaled n d e0 in
    let e1 := if n0 <? 2 ^ 52 * d0 then e0 - 1 else e0 in
    let e := Z.max e1 (-1074) in
    let '(n1, d1) := scaled n d e in
    let m := round_half_even n1 d1 in
    let '(m', e') := if m =? 2 ^ 53 then (2 ^ 52, e + 1) else (m, e) in
    if 971 <? e' then Infinity negative else Finite negative m' e'.

(** The double denoted by the decimal literal [m * 10^e]. *)
Definition decimal (negative : bool) (m e : Z) : number :=
  if 0 <=? e then to_double negative (m * 10 ^ e) 1
  else to_double negative m (10 ^ (- e)).

Definition of_Z (z : Z) : number := to_double (z <? 0) (Z.abs z) 1.

(** [a <= b] on numbers, as the [<=] operator computes it. *)
Definition number_leb (a b : number) : bool :=
  match a, b with
  | NaN, _ | _, NaN => false
  | Infinity true, _ => true
  | _, Infinity false => true
  | Infinity false, _ => false
  | _, Infinity true => false
  | Finite s m e, Finite t n f =>
      let x := if s then - m else m in
      let y := if t then - n else n in
      let k := Z.min e f in
      x * 2 ^ (e - k) <=? y * 2 ^ (f - k)
  end.

(** [lo <= x && x <= hi] for integer bounds. *)
Definition between (lo hi : Z) (x : number) : bool :=
  number_leb (of_Z lo) x && number_leb x (of_Z hi).

Definition is_integer (x : number) : bool :=
  match x with
  | Finite _ m e => if 0 <=? e then true else m mod 2 ^ (- e) =? 0
  | _ => false
  end.

(** ** [Number(string)]: the StringToNumber conversion

    Strings are sequences of code units below 256.  The grammar is
    StringNumericLiteral of ECMA-262: optional white space around either
    nothing (the result is [+0]), a signed decimal literal, [Infinity],
    or an unsigned binary, octal or hexadecimal integer; anything else
    is [NaN].  The conversion is total: it never throws. *)
Definition is_white_space (c : ascii) : bool :=
  let n := nat_of_ascii c in
  ((9 <=? n) && (n <=? 13) || (n =? 32) || (n =? 160))%nat.

Fixpoint trim_start (l : list ascii) : list ascii :=
  match l with
  | c :: r => if is_white_space c then trim_start r else l
  | [] => []
  end.

Definition trim (l : list ascii) : list ascii :=
  rev (trim_start (rev (trim_start l))).

Definition digit_value (base : Z) (c : ascii) : option Z :=
  let n := Z.of_nat (nat_of_ascii c) in
  let d :=
    if (48 <=? n) && (n <=? 57) then n - 48
    else if (97 <=? n) && (n <=? 122) then n - 87
    else if (65 <=? n) && (n <=? 90) then n - 55
    else base in
  if d <? base then Some d else None.

(** Reads the longest prefix of digits: the value read (continuing
    [acc]), the number of digits, and the rest of the input. *)
Fixpoint read_digits (base : Z) (l : list ascii) (acc count : Z)
  : Z * Z * list ascii :=
  match l with
  | c :: r =>
      match digit_value base c with
      | Some d => read_digits base r (acc * base + d) (count + 1)
      | None => (acc, count, l)
      end
  | [] => (acc, count, [])
  end.

Definition read_sign (l : list ascii) : bool * list ascii :=
  match l with
  | "+"%char :: r => (false, r)
  | "-"%char :: r => (true, r)
  | _ => (false, l)
  end.

(** ExponentPart, or nothing, up to the end of the input. *)
Definition read_exponent (l : list ascii) : option Z :=
  match l with
  | [] => Some 0
  | c :: r =>
      if Ascii.eqb c "e" || Ascii.eqb c "E" then
        let '(negative, r') := read_sign r in
        match read_digits 10 r' 0 0 with
        | (x, count, []) =>
            if 0 <? count then Some (if negative then - x else x) else None
        | _ => None
        end
      else None
  end.

Definition str_decimal_literal (l : list ascii) : number :=
  let '(negative, l1) := read_sign l in
  if String.eqb (string_of_list_ascii l1) "Infinity" then Infinity negative
  else
    let '(int_part, int_count, l2) := read_digits 10 l1 0 0 in
    let '(mantissa, frac_count, l3) :=
      match l2 with
      | "."%char :: r => read_digits 10 r int_part 0
      | _ => (int_part, 0, l2)
      end in
    if int_count + frac_count =? 0 then NaN
    else
      match read_exponent l3 with
      | Some x => decimal negative mantissa (x - frac_count)
      | None => NaN
      end.

Definition non_decimal_integer (base : Z) (l : list ascii) : number :=
  match read_digits base l 0 0 with
  | (v, count, []) => if 0 <? count then to_double false v 1 else NaN
  | _ => NaN
  end.

Definition Number (s : string) : number :=
  match trim (list_ascii_of_string s) with
  | [] => of_Z 0
  | ("0"%char :: p :: r) as l =>
      if Ascii.eqb p "x" || Ascii.eqb p "X" then non_decimal_integer 16 r
      else if Ascii.eqb p "o" || Ascii.eqb p "O" then non_decimal_integer 8 r
      else if Ascii.eqb p "b" || Ascii.eqb p "B" then non_decimal_integer 2 r
      else str_decimal_literal l
  | l => str_decimal_literal l
  end.

(** ** Values

    The values that reach the panel: [undefined] and the values that
    [JSON.parse] builds.  An object keeps its properties in the order of
    the text; when a key is repeated the last one is the property. *)
#[warnings="-register-all"] Inductive value : Type :=
| VUndefined
| VNull
| VBool (b : bool)
| VNumber (n : number)
| VString (s : string)
| VArray (elements : list value)
| VObject (properties : list (string * value)).

(** [Object.is] on primitives; arrays and objects, which have no identity
    here, are compared by structure. *)
Fixpoint value_eqb (a b : value) {struct a} : bool :=
  match a, b with
  | VUndefined, VUndefined => true
  | VNull, VNull => true
  | VBool x, VBool y => Bool.eqb x y
  | VNumber x, VNumber y => number_eqb x y
  | VString x, VString y => String.eqb x y
  | VArray xs, VArray ys =>
      (fix all2 (xs ys : list value) {struct xs} : bool :=
         match xs, ys with
         | [], [] => true
         | x :: xs', y :: ys' => value_eqb x y && all2 xs' ys'
         | _, _ => false
         end) xs ys
  | VObject ps, VObject qs =>
      (fix all2 (ps qs : list (string * value)) {struct ps} : bool :=
         match ps, qs with
         | [], [] => true
         | (k, x) :: ps', (k', y) :: qs' =>
             String.eqb k k' && value_eqb x y && all2 ps' qs'
         | _, _ => false
         end) ps qs
  | _, _ => false
  end.

(** ToBoolean. *)
Definition truthy (v : value) : bool :=
  match v with
  | VUndefined | VNull => false
  | VBool b => b
  | VNumber NaN => false
  | VNumber (Finite _ m _) => negb (m =? 0)
  | VNumber (Infinity _) => true
  | VString s => negb (String.eqb s "")
  | VArray _ | VObject _ => true
  end.

(** ** Exceptions *)
Inductive exn : Type :=
| Error (message : string)      (* [err instanceof Error] *)
| Thrown (v : value).           (* any other thrown value *)

Inductive outcome (A : Type) : Type :=
| Ok (a : A)
| Throw (e : exn).
Arguments Ok {A} a.
Arguments Throw {A} e.

Definition bind {A B} (x : outcome A) (k : A -> outcome B) : outcome B :=
  match x with
  | Ok a => k a
  | Throw e => Throw e
  end.

Fixpoint map_outcome {A B} (f : A -> outcome B) (l : list A)
  : outcome (list B) :=
  match l with
  | [] => Ok []
  | a :: r =>
      bind (f a) (fun b => bind (map_outcome f r) (fun bs => Ok (b :: bs)))
  end.

(** ** Property access

    [own_property k ps]: the property [k] of an object built by
    [JSON.parse] from the members [ps]. *)
Fixpoint own_property (k : string) (ps : list (string * value))
  : option value :=
  match ps with
  | [] => None
  | (k', v) :: r =>
      match own_property k r with
      | Some x => Some x
      | None => if String.eqb k k' then Some v else None
      end
  end.

(** [v.k] for a key [k] that no built-in prototype defines ([models] and
    [name] are such keys): a TypeError on [null] and [undefined], the own
    property of an object, [undefined] on every other value.  The text
    of the TypeError is the engine's. *)
Definition get_member (k : string) (v : value) : outcome value :=
  match v with
  | VUndefined | VNull =>
      Throw (Error ("Cannot read properties of null or undefined: " +:+ k))
  | VObject ps => Ok (default VUndefined (own_property k ps))
  | _ => Ok VUndefined
  end.

End JS.
(* ===================================================================== *)
(** * The panel                                                           *)
(* ===================================================================== *)
Module Panel.
Import JS.

(** ** Settings *)

(** [interface OllamaSettings].  The five typed fields only ever receive
    values of their type; [model] also receives [models[0]], which the
    payload of the model server decides ([m: any]), so it is a [value]. *)
Record OllamaSettings : Type := {
  model : value;
  temperature : number;
  topP : number;
  useFixedSeed : bool;
  seed : number;
  numCtx : number;
}.

(** [keyof OllamaSettings] *)
Inductive field : Type :=
| Fmodel | Ftemperature | FtopP | FuseFixedSeed | Fseed | FnumCtx.

Definition field_type (f : field) : Type :=
  match f with
  | Fmodel => value
  | FuseFixedSeed => bool
  | Ftemperature | FtopP | Fseed | FnumCtx => number
  end.

(** [settings[field]] *)
Definition get (f : field) (s : OllamaSettings) : field_type f :=
  match f with
  | Fmodel => model s
  | Ftemperature => temperature s
  | FtopP => topP s
  | FuseFixedSeed => useFixedSeed s
  | Fseed => seed s
  | FnumCtx => numCtx s
  end.

(** [{ ...settings, [field]: value }] *)
Definition spread_with (s : OllamaSettings) (f : field)
  : field_type f -> OllamaSettings :=
  match f with
  | Fmodel => fun v =>
      {| model := v; temperature := temperature s; topP := topP s;
         useFixedSeed := useFixedSeed s; seed := seed s; numCtx := numCtx s |}
  | Ftemperature => fun v =>
      {| model := model s; temperature := v; topP := topP s;
         useFixedSeed := useFixedSeed s; seed := seed s; numCtx := numCtx s |}
  | FtopP => fun v =>
      {| model := model s; temperature := temperature s; topP := v;
         useFixedSeed := useFixedSeed s; seed := seed s; numCtx := numCtx s |}
  | FuseFixedSeed => fun v =>
      {| model := model s; temperature := temperature s; topP := topP s;
         useFixedSeed := v; seed := seed s; numCtx := numCtx s |}
  | Fseed => fun v =>
      {| model := model s; temperature := temperature s; topP := topP s;
         useFixedSeed := useFixedSeed s; seed := v; numCtx := numCtx s |}
  | FnumCtx => fun v =>
      {| model := model s; temperature := temperature s; topP := topP s;
         useFixedSeed := useFixedSeed s; seed := seed s; numCtx := v |}
  end.

(** The object literal of the [useState] initialiser. *)
Definition default_settings : OllamaSettings := {|
  model := VString "";
  temperature := decimal false 7 (-1);
  topP := decimal false 9 (-1);
  useFixedSeed := false;
  seed := of_Z 42;
  numCtx := of_Z 2048;
|}.

#[global] Instance OllamaSettings_inhabited : Inhabited OllamaSettings :=
  populate default_settings.

(** ** Props

    Settings objects live in a store and are passed by reference
    ([nat] locations); a function value is known by its identity.
    [hideTitle] and [onHelp] only change what is drawn. *)
Record Props : Type := {
  onSettingsSave : nat;
  autoApply : bool;
  initialSettings : option nat;
}.

(** The dependency array of the bootstrap effect:
    [[autoApply, settings.model, onSettingsSave, initialSettings?.model]]. *)
Definition bootstrap_deps_t : Type := bool * value * nat * value.

(** ** The state of a mounted panel and of its surroundings *)
Record World : Type := {
  (* the store of settings objects and the next free location *)
  heap : gmap nat OllamaSettings;
  next : nat;
  (* the props of the last render *)
  props : Props;
  (* useState *)
  settings : nat;
  loading : bool;
  error : option string;
  availableModels : list value;
  (* the dependencies the effects last ran with *)
  memo_bootstrap : bootstrap_deps_t;
  memo_sync : option nat;
  (* callbacks waiting for the next animation frame: [onSettingsSave]
     and its argument *)
  frame_queue : list (nat * nat);
  (* the calls the owner has received: [onSettingsSave] and its argument *)
  pushes : list (nat * nat);
  (* console.error *)
  console : list (string * string);
}.

Definition with_store (h : gmap nat OllamaSettings) (n : nat) (w : World)
  : World :=
  {| heap := h; next := n; props := props w; settings := settings w;
     loading := loading w; error := error w;
     availableModels := availableModels w;
     memo_bootstrap := memo_bootstrap w; memo_sync := memo_sync w;
     frame_queue := frame_queue w; pushes := pushes w;
     console := console w |}.

Definition with_props (p : Props) (w : World) : World :=
  {| heap := heap w; next := next w; props := p; settings := settings w;
     loading := loading w; error := error w;
     availableModels := availableModels w;
     memo_bootstrap := memo_bootstrap w; memo_sync := memo_sync w;
     frame_queue := frame_queue w; pushes := pushes w;
     console := console w |}.

Definition setSettings (l : nat) (w : World) : World :=
  {| heap := heap w; next := next w; props := props w; settings := l;
     loading := loading w; error := error w;
     availableModels := availableModels w;
     memo_bootstrap := memo_bootstrap w; memo_sync := memo_sync w;
     frame_queue := frame_queue w; pushes := pushes w;
     console := console w |}.

Definition setLoading (b : bool) (w : World) : World :=
  {| heap := heap w; next := next w; props := props w;
     settings := settings w; loading := b; error := error w;
     availableModels := availableModels w;
     memo_bootstrap := memo_bootstrap w; memo_sync := memo_sync w;
     frame_queue := frame_queue w; pushes := pushes w;
     console := console w |}.

Definition setError (e : option string) (w : World) : World :=
  {| heap := heap w; next := next w; props := props w;
     settings := settings w; loading := loading w; error := e;
     availableModels := availableModels w;
     memo_bootstrap := memo_bootstrap w; memo_sync := memo_sync w;
     frame_queue := frame_queue w; pushes := pushes w;
     console := console w |}.

Definition setAvailableModels (ms : list value) (w : World) : World :=
  {| heap := heap w; next := next w; props := props w;
     settings := settings w; loading := loading w; error := error w;
     availableModels := ms;
     memo_bootstrap := memo_bootstrap w; memo_sync := memo_sync w;
     frame_queue := frame_queue w; pushes := pushes w;
     console := console w |}.

Definition with_memo (b : bootstrap_deps_t) (s : option nat) (w : World)
  : World :=
  {| heap := heap w; next := next w; props := props w;
     settings := settings w; loading := loading w; error := error w;
     availableModels := availableModels w;
     memo_bootstrap := b; memo_sync := s;
     frame_queue := frame_queue w; pushes := pushes w;
     console := console w |}.

Definition with_frame_queue (q : list (nat * nat)) (w : World) : World :=
  {| heap := heap w; next := next w; props := props w;
     settings := settings w; loading := loading w; error := error w;
     availableModels := availableModels w;
     memo_bootstrap := memo_bootstrap w; memo_sync := memo_sync w;
     frame_queue := q; pushes := pushes w;
     console := console w |}.

Definition with_pushes (ps : list (nat * nat)) (w : World) : World :=
  {| heap := heap w; next := next w; props := props w;
     settings := settings w; loading := loading w; error := error w;
     availableModels := availableModels w;
     memo_bootstrap := memo_bootstrap w; memo_sync := memo_sync w;
     frame_queue := frame_queue w; pushes := ps;
     console := console w |}.

Definition console_error (label message : string) (w : World) : World :=
  {| heap := heap w; next := next w; props := props w;
     settings := settings w; loading := loading w; error := error w;
     availableModels := availableModels w;
     memo_bootstrap := memo_bootstrap w; memo_sync := memo_sync w;
     frame_queue := frame_queue w; pushes := pushes w;
     console := console w ++ [(label, message)] |}.

(** The object at a location, and the working record: the object the
    [settings] state refers to. *)
Definition read (w : World) (l : nat) : OllamaSettings := heap w !!! l.
Definition working (w : World) : OllamaSettings := read w (settings w).

(** A new object: the only way the store changes. *)
Definition alloc (r : OllamaSettings) (w : World) : World :=
  with_store (<[next w := r]> (heap w)) (S (next w)) w.

(** [onSettingsSave(arg)] *)
Definition call_owner (callback arg : nat) (w : World) : World :=
  with_pushes (pushes w ++ [(callback, arg)]) w.

(** [requestAnimationFrame(() => { callback(arg) })] *)
Definition requestAnimationFrame (callback arg : nat) (w : World) : World :=
  with_frame_queue (frame_queue w ++ [(callback, arg)]) w.

(** ** Rendering and effects *)

(** [initialSettings?.model] *)
Definition initial_model (p : Props) (w : World) : value :=
  match initialSettings p with
  | Some l => model (read w l)
  | None => VUndefined
  end.

Definition bootstrap_deps (p : Props) (w : World) : bootstrap_deps_t :=
  (autoApply p, model (working w), onSettingsSave p, initial_model p w).

(** The comparison of two dependency arrays, entry by entry. *)
Definition bootstrap_deps_eqb (a b : bootstrap_deps_t) : bool :=
  let '(a1, a2, a3, a4) := a in
  let '(b1, b2, b3, b4) := b in
  Bool.eqb a1 b1 && value_eqb a2 b2 && Nat.eqb a3 b3 && value_eqb a4 b4.

Definition sync_deps_eqb (a b : option nat) : bool :=
  match a, b with
  | Some x, Some y => Nat.eqb x y
  | None, None => true
  | _, _ => false
  end.

(** The effect "to handle the case when we need to update model after
    fetching": [if (autoApply && settings.model && !initialSettings?.model)
    onSettingsSave(settings)]. *)
Definition effect_bootstrap (p : Props) (w : World) : World :=
  if autoApply p && truthy (model (working w))
     && negb (truthy (initial_model p w))
  then call_owner (onSettingsSave p) (settings w) w
  else w.

(** The effect "to update settings when initialSettings changes":
    [if (initialSettings) setSettings(initialSettings)]. *)
Definition effect_sync (p : Props) (w : World) : World :=
  match initialSettings p with
  | Some l => setSettings l w
  | None => w
  end.

(** One render with props [p] followed by its effects, in the order of
    the source.  An effect runs when one of its dependencies differs
    from the last run.  The effect that fetches the models depends on
    [fetchModels] alone, which [useCallback(..., [])] keeps the same, so
    it runs at mount only.  The closures of this render see the
    [settings] of this render: the bootstrap effect runs before the
    sync effect replaces them. *)
Definition render_pass (p : Props) (w : World) : World :=
  let deps := bootstrap_deps p w in
  let w1 :=
    if bootstrap_deps_eqb (memo_bootstrap w) deps then w
    else effect_bootstrap p w in
  let w2 :=
    if sync_deps_eqb (memo_sync w) (initialSettings p) then w1
    else effect_sync p w1 in
  with_memo deps (initialSettings p) (with_props p w2).

(** A render and, when one of its effects changed the state, the render
    that follows ([render_settles] shows that no third one is due). *)
Definition render (p : Props) (w : World) : World :=
  let w' := render_pass p w in
  if Nat.eqb (settings w') (settings w) then w' else render_pass p w'.

(** ** Mount

    The state of the first render: [useState(initialSettings || { ... })],
    [loading = true], [error = null], [availableModels = []]. *)
Definition initial_state
  (p : Props) (store : gmap nat OllamaSettings) (free : nat) : World :=
  let w0 :=
    {| heap := store; next := free; props := p; settings := free;
       loading := true; error := None; availableModels := [];
       memo_bootstrap := (autoApply p, VUndefined, onSettingsSave p,
                          VUndefined);
       memo_sync := initialSettings p;
       frame_queue := []; pushes := []; console := [] |} in
  match initialSettings p with
  | Some l => setSettings l w0
  | None => setSettings free (alloc default_settings w0)
  end.

(** After the first render every effect runs: [fetchModels()] is
    started (it suspends at its first [await], see [fetchModels]), then
    the bootstrap and the sync effect. *)
Definition mount (p : Props) (store : gmap nat OllamaSettings) (free : nat)
  : World :=
  let w1 := initial_state p store free in
  let w2 := effect_sync p (effect_bootstrap p w1) in
  let w3 := with_memo (bootstrap_deps p w1) (initialSettings p) w2 in
  if Nat.eqb (settings w3) (settings w1) then w3 else render_pass p w3.

(** ** The model list *)

(** What [checkOllamaConnection()] resolves to: [{ connected, error }]. *)
Record connection : Type := {
  connected : bool;
  connection_error : option string;
}.

(** The answers of the network to one run of [fetchModels]: the result
    of [await checkOllamaConnection()], and the result of
    [await fetchWithCORS('/api/tags')] with, inside, the result of
    [await response.json()]. *)
Record network : Type := {
  checkOllamaConnection : outcome connection;
  fetchWithCORS : outcome (outcome value);
}.

(** [connectionError || 'Failed to connect to Ollama'] *)
Definition or_default (o : option string) (d : string) : string :=
  match o with
  | Some s => if String.eqb s "" then d else s
  | None => d
  end.

(** [data.models?.map((m: any) => m.name) || []] *)
Definition models_of (data : value) : outcome (list value) :=
  bind (get_member "models" data) (fun ms =>
  match ms with
  | VUndefined | VNull => Ok []
  | VArray elements => map_outcome (get_member "name") elements
  | _ => Throw (Error "data.models.map is not a function")
  end).

(** The [try] block up to the value of [models]. *)
Definition fetch_models_list (net : network) : outcome (list value) :=
  bind (checkOllamaConnection net) (fun c =>
  if negb (connected c)
  then Throw (Error (or_default (connection_error c)
                                "Failed to connect to Ollama"))
  else
    bind (fetchWithCORS net) (fun response =>
    bind response (fun data =>
    models_of data))).

(** The updater given to [setSettings], applied to the state of the
    moment: [if (models.length > 0 && !currentSettings.model)
    return { ...currentSettings, model: models[0] };
    return currentSettings]. *)
Definition select_first_model (models : list value) (w : World) : World :=
  let currentSettings := working w in
  if (0 <? length models)%nat && negb (truthy (model currentSettings))
  then
    setSettings (next w)
      (alloc (spread_with currentSettings Fmodel (hd VUndefined models)) w)
  else w.

(** ** Events *)

(** [handleSettingChange(field, value)]: [settings] is the state of the
    last render. *)
Definition handleSettingChange (f : field) (v : field_type f) (w : World)
  : World :=
  let newSettings := spread_with (working w) f v in
  let l := next w in
  let w1 := setSettings l (alloc newSettings w) in
  if autoApply (props w)
  then requestAnimationFrame (onSettingsSave (props w)) l w1
  else w1.

(** What the user can do to the controls of the panel. *)
Inductive event : Type :=
| SelectModel (v : value)            (* the Select *)
| SlideTemperature (v : number)      (* the first Slider *)
| SlideTopP (v : number)             (* the second Slider *)
| CheckFixedSeed (checked : bool)    (* the Checkbox *)
| TypeSeed (text : string)           (* the first TextField *)
| TypeNumCtx (text : string)         (* the second TextField *)
| ClickApply.                        (* the Button *)

Definition handle (ev : event) (w : World) : World :=
  match ev with
  | SelectModel v => handleSettingChange Fmodel v w
  | SlideTemperature v => handleSettingChange Ftemperature v w
  | SlideTopP v => handleSettingChange FtopP v w
  | CheckFixedSeed checked => handleSettingChange FuseFixedSeed checked w
  | TypeSeed text => handleSettingChange Fseed (Number text) w
  | TypeNumCtx text => handleSettingChange FnumCtx (Number text) w
  | ClickApply => call_owner (onSettingsSave (props w)) (settings w) w
  end.

(** An edit is one of the six calls of [handleSettingChange]. *)
Definition edit_of (ev : event) : option { f : field & field_type f } :=
  match ev with
  | SelectModel v => Some (existT Fmodel v)
  | SlideTemperature v => Some (existT Ftemperature v)
  | SlideTopP v => Some (existT FtopP v)
  | CheckFixedSeed checked => Some (existT FuseFixedSeed checked)
  | TypeSeed text => Some (existT Fseed (Number text))
  | TypeNumCtx text => Some (existT FnumCtx (Number text))
  | ClickApply => None
  end.

(** Whether the control is drawn and can be used: the menu offers the
    models only once they are loaded without error, the seed field
    shows under [useFixedSeed], the button when [autoApply] is off. *)
Definition offered (ev : event) (w : World) : bool :=
  match ev with
  | SelectModel v =>
      negb (loading w)
      && negb (match error w with
               | Some message => negb (String.eqb message "")
               | None => false
               end)
      && existsb (value_eqb v) (availableModels w)
  | TypeSeed _ => useFixedSeed (working w)
  | ClickApply => negb (autoApply (props w))
  | _ => true
  end.

(** An event and the render it causes. *)
Definition dispatch (ev : event) (w : World) : World :=
  render (props w) (handle ev w).

(** The next animation frame: the waiting callbacks run in order. *)
Definition animation_frame (w : World) : World :=
  with_frame_queue [] (with_pushes (pushes w ++ frame_queue w) w).

Section WithStartCommand.

(** [getOllamaStartCommand()], of [../config/api]: the command that
    starts the model server on this platform. *)
Variable getOllamaStartCommand : string.

(** [fetchModels], from the moment its awaited answers are known: the
    rest of the [try] block or the [catch] block, the [finally] block,
    and the render of the new state. *)
Definition fetchModels (net : network) (w : World) : World :=
  let w1 :=
    match fetch_models_list net with
    | Ok models =>
        select_first_model models
          (setError None (setAvailableModels models w))
    | Throw err =>
        let errorMessage :=
          match err with
          | Error message => message
          | Thrown _ => "Unknown error"
          end in
        setError
          (Some ("Cannot connect to Ollama. " +:+ getOllamaStartCommand))
          (console_error "Error fetching models:" errorMessage w)
    end in
  render (props w) (setLoading false w1).

(** ** Runs *)
Inductive action : Type :=
| User (ev : event)               (* an event, then the render it causes *)
| Frame                           (* an animation frame *)
| Fetched (net : network)         (* the answers [fetchModels] awaited *)
| OwnerRenders (p : Props)        (* the owner renders the panel again *)
| OwnerCreates (r : OllamaSettings). (* the owner builds a settings object *)

Definition step (a : action) (w : World) : World :=
  match a with
  | User ev => dispatch ev w
  | Frame => animation_frame w
  | Fetched net => fetchModels net w
  | OwnerRenders p => render p w
  | OwnerCreates r => alloc r w
  end.

Definition run (l : list action) (w : World) : World :=
  fold_left (fun w a => step a w) l w.

End WithStartCommand.

(** ** Invariants of a run *)

(** Between two steps every render is done: the effects have run with
    the dependencies of the state as it is. *)
Definition settled (w : World) : Prop :=
  memo_bootstrap w = bootstrap_deps (props w) w
  /\ memo_sync w = initialSettings (props w).

(** The objects the panel refers to are allocated. *)
Definition allocated (w : World) : Prop :=
  (settings w < next w)%nat
  /\ match initialSettings (props w) with
     | Some l => (l < next w)%nat
     | None => True
     end.

(** The owner passes settings objects that exist. *)
Definition admissible (a : action) (w : World) : Prop :=
  match a with
  | OwnerRenders p =>
      match initialSettings p with
      | Some l => (l < next w)%nat
      | None => True
      end
  | _ => True
  end.

(** Every action of the owner being admissible when it happens. *)
Fixpoint admissible_run (cmd : string) (l : list action) (w : World) : Prop :=
  match l with
  | [] => True
  | a :: r => admissible a w /\ admissible_run cmd r (step cmd a w)
  end.

(** [data.models] is missing, [undefined] or [null], and [data] itself
    is a value that has properties. *)
Definition models_absent (data : value) : bool :=
  match data with
  | VUndefined | VNull => false
  | VObject ps =>
      match own_property "models" ps with
      | None | Some VUndefined | Some VNull => true
      | Some _ => false
      end
  | _ => true
  end.

(** No field of the record is [undefined]. *)
Definition populated (r : OllamaSettings) : bool :=
  negb (value_eqb (model r) VUndefined).

(** ** Scenarios

    The situations of the testable properties: an owner callback, the
    props of a panel used alone or fed with a settings object, the
    answers of a model server that lists the models [a] and [b], and of
    one that cannot be reached. *)
Definition start_command : string := "ollama serve".

Definition manual_props : Props :=
  {| onSettingsSave := 7; autoApply := false; initialSettings := None |}.

Definition auto_props : Props :=
  {| onSettingsSave := 7; autoApply := true; initialSettings := None |}.

Definition llama3_settings : OllamaSettings :=
  spread_with default_settings Fmodel (VString "llama3").

(** The owner keeps one settings object, at location 0. *)
Definition fed_props (auto : bool) : Props :=
  {| onSettingsSave := 7; autoApply := auto; initialSettings := Some 0%nat |}.

Definition reachable (data : value) : network :=
  {| checkOllamaConnection :=
       Ok {| connected := true; connection_error := None |};
     fetchWithCORS := Ok (Ok data) |}.

Definition unreachable : network :=
  {| checkOllamaConnection :=
       Ok {| connected := false;
             connection_error := Some "connect ECONNREFUSED" |};
     fetchWithCORS := Throw (Error "Failed to fetch") |}.

Definition models_a_b : value :=
  VObject [("models", VArray [VObject [("name", VString "a")];
                              VObject [("name", VString "b")]])].

Definition malformed_models : value :=
  VObject [("models", VNumber (of_Z 5))].

(** A panel used alone, in manual and in auto-apply mode. *)
Definition alone_manual : World := mount manual_props ∅ 0.
Definition alone_auto : World := mount auto_props ∅ 0.

(** The same after the fetch: the bootstrap selected [a]. *)
Definition alone_auto_a : World :=
  run start_command [Fetched (reachable models_a_b)] alone_auto.

(** A panel fed with the model [llama3], and one fed with no model. *)
Definition fed_llama3 : World :=
  mount (fed_props false) {[0%nat := llama3_settings]} 1.
Definition fed_empty : World :=
  mount (fed_props false) {[0%nat := default_settings]} 1.

(** The owner renders again, with a new function for the callback. *)
Definition new_callback_props : Props :=
  {| onSettingsSave := 8; autoApply := true; initialSettings := None |}.

(** ** The menu of the Select

    [loading ? <MenuItem disabled>Loading models...</MenuItem>
     : error ? <MenuItem disabled>{error}</MenuItem>
     : availableModels.map((model) => <MenuItem value={model}>...)] *)
Inductive menu : Type :=
| MenuLoading
| MenuError (message : string)
| MenuModels (items : list value).

Definition menu_of (w : World) : menu :=
  if loading w then MenuLoading
  else
    match error w with
    | Some message =>
        if String.eqb message "" then MenuModels (availableModels w)
        else MenuError message
    | None => MenuModels (availableModels w)
    end.

(** ** Kinds of actions and of events *)
Definition is_fetch (a : action) : bool :=
  match a with Fetched _ => true | _ => false end.

Definition is_click (a : action) : bool :=
  match a with User ClickApply => true | _ => false end.

(** The owner does not switch auto-apply on. *)
Definition keeps_manual (a : action) : bool :=
  match a with OwnerRenders p => negb (autoApply p) | _ => true end.

(** An edit of a field other than the model. *)
Definition keeps_model (ev : event) : bool :=
  match ev with SelectModel _ | ClickApply => false | _ => true end.

(** The record an event makes of the record [r]. *)
Definition edit_record (ev : event) (r : OllamaSettings) : OllamaSettings :=
  match edit_of ev with
  | Some (existT f v) => spread_with r f v
  | None => r
  end.

(** Events one after the other, each with the render it causes. *)
Definition dispatch_all (evs : list event) (w : World) : World :=
  fold_left (fun w ev => dispatch ev w) evs w.

(** ** Texts *)

(** The decimal numeral of [n], as a user types it: [2048] is ["2048"]. *)
Definition decimal_text (n : nat) : string :=
  DecimalString.NilZero.string_of_uint (Nat.to_uint n).

(** The characters of a numeral, and what a decimal digit is. *)
Definition numeral_chars (d : Decimal.uint) : list ascii :=
  list_ascii_of_string (DecimalString.NilEmpty.string_of_uint d).

Definition digit_char (c : ascii) : bool :=
  let n := nat_of_ascii c in ((48 <=? n) && (n <=? 57))%nat.

(** A text of white space only, the empty text included. *)
Definition blank (text : string) : bool :=
  forallb is_white_space (list_ascii_of_string text).

(** ** Payloads *)
Definition nullish (v : value) : bool :=
  match v with VUndefined | VNull => true | _ => false end.

(** [m.name] for an [m] that has properties. *)
Definition name_of (m : value) : value :=
  match m with
  | VObject ps => default VUndefined (own_property "name" ps)
  | _ => VUndefined
  end.

End Panel.


(* ===================================================================== *)
(** * Properties                                                          *)
(* ===================================================================== *)
Import JS Panel.

(** ** The comparison of dependencies *)

Lemma number_eqb_refl (n : number) : number_eqb n n = true.
Proof.
  destruct n as [|s|s m e]; simpl; trivial.
  - now destruct s.
  - rewrite !Z.eqb_refl. now destruct s.
Qed.

Fixpoint value_eqb_refl (v : value) : value_eqb v v = true.
Proof.
  destruct v as [| |b|n|s|elements|properties]; simpl; trivial.
  - now destruct b.
  - apply number_eqb_refl.
  - apply String.eqb_refl.
  - induction elements as [|x xs IH]; trivial.
    now rewrite value_eqb_refl, IH.
  - induction properties as [|[k x] ps IH]; trivial.
    now rewrite String.eqb_refl, value_eqb_refl, IH.
Qed.

Lemma bootstrap_deps_eqb_refl (d : bootstrap_deps_t) :
  bootstrap_deps_eqb d d = true.
Proof.
  destruct d as [[[a m] c] i]; simpl.
  rewrite !value_eqb_refl, Nat.eqb_refl. now destruct a.
Qed.

Lemma sync_deps_eqb_refl (d : option nat) : sync_deps_eqb d d = true.
Proof. destruct d; simpl; trivial. apply Nat.eqb_refl. Qed.

Lemma sync_deps_eqb_eq (a b : option nat) :
  sync_deps_eqb a b = true <-> a = b.
Proof.
  destruct a, b; simpl; split; try congruence; try discriminate.
  - intros H. apply Nat.eqb_eq in H. now subst.
  - intros [= ->]. apply Nat.eqb_refl.
Qed.

(** ** The store *)

Lemma read_alloc_new (r : OllamaSettings) (w : World) :
  read (alloc r w) (next w) = r.
Proof. unfold read, alloc; simpl. apply lookup_total_insert_eq. Qed.

Lemma read_alloc_old (r : OllamaSettings) (w : World) (l : nat) :
  l <> next w -> read (alloc r w) l = read w l.
Proof.
  intros Hl. unfold read, alloc; simpl.
  now apply lookup_total_insert_ne.
Qed.

(** ** What a render changes *)

(** The guard of the bootstrap effect fails when the working record is
    the external one. *)
Lemma effect_bootstrap_external (p : Props) (w : World) (l : nat) :
  initialSettings p = Some l -> settings w = l -> effect_bootstrap p w = w.
Proof.
  intros Hp Hs. unfold effect_bootstrap, initial_model, working.
  rewrite Hp, Hs.
  destruct (autoApply p), (truthy (model (read w l))); reflexivity.
Qed.

(** A render touches neither the store nor the hook state other than
    [settings], and queues nothing. *)
Lemma render_pass_keeps (p : Props) (w : World) :
  let w' := render_pass p w in
  heap w' = heap w /\ next w' = next w /\ props w' = p
  /\ loading w' = loading w /\ error w' = error w
  /\ availableModels w' = availableModels w
  /\ frame_queue w' = frame_queue w /\ console w' = console w
  /\ memo_sync w' = initialSettings p
  /\ memo_bootstrap w' = bootstrap_deps p w.
Proof.
  unfold render_pass, effect_bootstrap, effect_sync, call_owner.
  repeat case_match; simpl; repeat split.
Qed.

Lemma render_pass_settings (p : Props) (w : World) :
  settings (render_pass p w) =
  if sync_deps_eqb (memo_sync w) (initialSettings p) then settings w
  else default (settings w) (initialSettings p).
Proof.
  unfold render_pass, effect_bootstrap, effect_sync, call_owner.
  repeat case_match; reflexivity.
Qed.

Lemma render_pass_pushes (p : Props) (w : World) :
  pushes (render_pass p w) =
  pushes (if bootstrap_deps_eqb (memo_bootstrap w) (bootstrap_deps p w)
          then w else effect_bootstrap p w).
Proof.
  unfold render_pass, effect_bootstrap, effect_sync, call_owner.
  repeat case_match; reflexivity.
Qed.

(** The second render of [render], when there is one, changes nothing
    but the remembered dependencies: its sync effect has no reason to
    run, and its bootstrap effect finds the working record to be the
    external one. *)
Lemma render_second_pass (p : Props) (w : World) :
  let w' := render_pass p w in
  settings w' <> settings w ->
  settings (render_pass p w') = settings w'
  /\ pushes (render_pass p w') = pushes w'.
Proof.
  intros w' Hne.
  pose proof (render_pass_keeps p w) as (_ & _ & _ & _ & _ & _ & _ & _ & Hs & _).
  fold w' in Hs.
  pose proof (render_pass_settings p w) as Hset. fold w' in Hset.
  split.
  - rewrite render_pass_settings, Hs. now rewrite sync_deps_eqb_refl.
  - rewrite render_pass_pushes.
    destruct (bootstrap_deps_eqb _ _); trivial.
    destruct (sync_deps_eqb (memo_sync w) (initialSettings p));
      [contradiction|].
    destruct (initialSettings p) as [l|] eqn:Hp; simpl in Hset;
      [|contradiction].
    now rewrite (effect_bootstrap_external p w' l).
Qed.

Lemma render_keeps (p : Props) (w : World) :
  let w' := render p w in
  heap w' = heap w /\ next w' = next w /\ props w' = p
  /\ loading w' = loading w /\ error w' = error w
  /\ availableModels w' = availableModels w
  /\ frame_queue w' = frame_queue w /\ console w' = console w.
Proof.
  unfold render.
  pose proof (render_pass_keeps p w) as H1.
  pose proof (render_pass_keeps p (render_pass p w)) as H2.
  cbv zeta in *.
  destruct H1 as (A1 & A2 & A3 & A4 & A5 & A6 & A7 & A8 & _).
  destruct H2 as (B1 & B2 & B3 & B4 & B5 & B6 & B7 & B8 & _).
  destruct (Nat.eqb _ _); repeat split; congruence.
Qed.

Lemma render_settings (p : Props) (w : World) :
  settings (render p w) =
  if sync_deps_eqb (memo_sync w) (initialSettings p) then settings w
  else default (settings w) (initialSettings p).
Proof.
  unfold render. destruct (Nat.eqb _ _) eqn:E.
  - apply render_pass_settings.
  - apply Nat.eqb_neq in E.
    rewrite (proj1 (render_second_pass p w E)).
    apply render_pass_settings.
Qed.

Lemma render_pushes (p : Props) (w : World) :
  pushes (render p w) =
  pushes (if bootstrap_deps_eqb (memo_bootstrap w) (bootstrap_deps p w)
          then w else effect_bootstrap p w).
Proof.
  unfold render. destruct (Nat.eqb _ _) eqn:E.
  - apply render_pass_pushes.
  - apply Nat.eqb_neq in E.
    rewrite (proj2 (render_second_pass p w E)).
    apply render_pass_pushes.
Qed.

Lemma read_render (p : Props) (w : World) (l : nat) :
  read (render p w) l = read w l.
Proof.
  unfold read. now rewrite (proj1 (render_keeps p w)).
Qed.

(** After [render] the effects have run with the dependencies of the
    state as it is: no further render is due. *)
Lemma render_settles (p : Props) (w : World) : settled (render p w).
Proof.
  unfold settled, render.
  pose proof (render_pass_keeps p w) as K1.
  pose proof (render_pass_keeps p (render_pass p w)) as K2.
  cbv zeta in K1, K2.
  destruct K1 as (Hh1 & _ & Hp1 & _ & _ & _ & _ & _ & Hs1 & Hb1).
  destruct K2 as (Hh2 & _ & Hp2 & _ & _ & _ & _ & _ & Hs2 & Hb2).
  destruct (Nat.eqb _ _) eqn:E.
  - apply Nat.eqb_eq in E. rewrite Hp1, Hs1, Hb1. split; trivial.
    unfold bootstrap_deps, initial_model, working, read.
    now rewrite Hh1, E.
  - apply Nat.eqb_neq in E.
    destruct (render_second_pass p w E) as [Hset _].
    rewrite Hp2, Hs2, Hb2. split; trivial.
    unfold bootstrap_deps, initial_model, working, read.
    now rewrite Hh2, Hset.
Qed.

(** ** What the handlers change *)

Lemma handleSettingChange_fields (f : field) (v : field_type f) (w : World) :
  let w' := handleSettingChange f v w in
  heap w' = <[next w := spread_with (working w) f v]> (heap w)
  /\ next w' = S (next w) /\ settings w' = next w /\ props w' = props w
  /\ memo_bootstrap w' = memo_bootstrap w /\ memo_sync w' = memo_sync w
  /\ pushes w' = pushes w
  /\ frame_queue w' =
     (if autoApply (props w)
      then frame_queue w ++ [(onSettingsSave (props w), next w)]
      else frame_queue w)
  /\ loading w' = loading w /\ error w' = error w
  /\ availableModels w' = availableModels w.
Proof.
  unfold handleSettingChange, requestAnimationFrame.
  destruct (autoApply (props w)); simpl; repeat split.
Qed.

Lemma working_handleSettingChange (f : field) (v : field_type f) (w : World) :
  working (handleSettingChange f v w) = spread_with (working w) f v.
Proof.
  pose proof (handleSettingChange_fields f v w) as (Hh & _ & Hs & _).
  unfold working at 1, read. rewrite Hh, Hs.
  apply lookup_total_insert_eq.
Qed.

Lemma read_handleSettingChange
  (f : field) (v : field_type f) (w : World) (l : nat) :
  l <> next w -> read (handleSettingChange f v w) l = read w l.
Proof.
  intros Hl.
  pose proof (handleSettingChange_fields f v w) as (Hh & _).
  unfold read. rewrite Hh. now apply lookup_total_insert_ne.
Qed.

Lemma handle_edit (ev : event) (w : World) :
  handle ev w =
  match edit_of ev with
  | Some (existT f v) => handleSettingChange f v w
  | None => call_owner (onSettingsSave (props w)) (settings w) w
  end.
Proof. now destruct ev. Qed.

(** A render of a settled panel with the props it has does nothing when
    the model of the working record is what the bootstrap effect last
    saw. *)
Lemma render_quiet (w : World) :
  memo_bootstrap w = bootstrap_deps (props w) w ->
  memo_sync w = initialSettings (props w) ->
  settings (render (props w) w) = settings w
  /\ pushes (render (props w) w) = pushes w.
Proof.
  intros Hb Hs. rewrite render_settings, render_pushes, Hb, Hs.
  now rewrite bootstrap_deps_eqb_refl, sync_deps_eqb_refl.
Qed.

(** ** Mount *)

(** At mount the effects find nothing to do: the working record is the
    external one, or its model is empty. *)
Lemma mount_idle (p : Props) (store : gmap nat OllamaSettings) (free : nat) :
  mount p store free =
  with_memo (bootstrap_deps p (initial_state p store free))
    (initialSettings p) (initial_state p store free).
Proof.
  unfold mount.
  assert (H : effect_bootstrap p (initial_state p store free)
              = initial_state p store free).
  { destruct (initialSettings p) as [l|] eqn:Hp.
    - apply (effect_bootstrap_external p _ l Hp).
      unfold initial_state. now rewrite Hp.
    - unfold effect_bootstrap, working, read, initial_model, initial_state.
      rewrite Hp. simpl. rewrite lookup_total_insert_eq. simpl.
      now rewrite andb_false_r. }
  assert (H' : effect_sync p (initial_state p store free)
               = initial_state p store free).
  { unfold effect_sync, initial_state. now destruct (initialSettings p). }
  rewrite H, H'. simpl. now rewrite Nat.eqb_refl.
Qed.

(** ** The invariants hold along every run *)

Lemma mount_settled (p : Props) (store : gmap nat OllamaSettings) (free : nat) :
  settled (mount p store free).
Proof.
  rewrite mount_idle. unfold settled, initial_state.
  destruct (initialSettings p) as [l|] eqn:Hp; simpl; rewrite Hp;
    split; reflexivity.
Qed.

Lemma mount_allocated (p : Props) (store : gmap nat OllamaSettings) (free : nat) :
  match initialSettings p with Some l => (l < free)%nat | None => True end ->
  allocated (mount p store free).
Proof.
  rewrite mount_idle. unfold allocated, initial_state.
  destruct (initialSettings p) as [l|] eqn:Hp; simpl; rewrite Hp;
    intros Hl; split; trivial; lia.
Qed.

Lemma render_allocated (p : Props) (w : World) :
  match initialSettings p with Some l => (l < next w)%nat | None => True end ->
  (settings w < next w)%nat ->
  allocated (render p w).
Proof.
  intros Hp Hs. unfold allocated.
  destruct (render_keeps p w) as (_ & -> & -> & _).
  rewrite render_settings. split; trivial.
  destruct (sync_deps_eqb _ _); trivial.
  destruct (initialSettings p); trivial.
Qed.

Lemma select_first_model_fields (models : list value) (w : World) :
  let w' := select_first_model models w in
  props w' = props w /\ memo_bootstrap w' = memo_bootstrap w
  /\ memo_sync w' = memo_sync w /\ pushes w' = pushes w
  /\ frame_queue w' = frame_queue w /\ loading w' = loading w
  /\ error w' = error w /\ availableModels w' = availableModels w
  /\ console w' = console w
  /\ (next w <= next w')%nat
  /\ ((settings w < next w)%nat -> (settings w' < next w')%nat).
Proof.
  unfold select_first_model.
  destruct (_ && _); simpl; repeat split; trivial; lia.
Qed.

Lemma step_allocated (cmd : string) (a : action) (w : World) :
  admissible a w -> allocated w -> allocated (step cmd a w).
Proof.
  intros Ha [Hs He]. destruct a as [ev| |net|p|r]; simpl in *.
  - unfold dispatch. rewrite handle_edit.
    destruct (edit_of ev) as [[f v]|].
    + pose proof (handleSettingChange_fields f v w)
        as (_ & Hn & Hset & Hp & _).
      apply render_allocated; rewrite ?Hn, ?Hset; try lia.
      destruct (initialSettings (props w)); trivial; lia.
    + now apply render_allocated.
  - split; trivial.
  - unfold fetchModels. destruct (fetch_models_list net) as [models|err].
    + pose proof (select_first_model_fields models
                    (setError None (setAvailableModels models w)))
        as (Hp & _ & _ & _ & _ & _ & _ & _ & _ & Hn & Hset).
      simpl in Hn, Hset. apply render_allocated; simpl.
      * destruct (initialSettings (props w)); trivial; lia.
      * now apply Hset.
    + now apply render_allocated.
  - now apply render_allocated.
  - unfold allocated; simpl. split; [lia|].
    destruct (initialSettings (props w)); trivial; lia.
Qed.

Lemma step_settled (cmd : string) (a : action) (w : World) :
  allocated w -> settled w -> settled (step cmd a w).
Proof.
  intros [Hs He] [Hb Hy]. destruct a as [ev| |net|p|r]; simpl.
  - apply render_settles.
  - split; trivial.
  - apply render_settles.
  - apply render_settles.
  - unfold settled, bootstrap_deps, initial_model, working in *; simpl.
    rewrite Hb, Hy. split; trivial.
    rewrite read_alloc_old by lia.
    destruct (initialSettings (props w)) as [l|]; trivial.
    now rewrite read_alloc_old by lia.
Qed.

Lemma run_invariant (cmd : string) (l : list action) (w : World) :
  admissible_run cmd l w -> allocated w -> settled w ->
  allocated (run cmd l w) /\ settled (run cmd l w).
Proof.
  revert w. induction l as [|a r IH]; intros w Hadm Ha Hs; simpl.
  - now split.
  - destruct Hadm as [H1 H2]. apply IH; trivial.
    + now apply step_allocated.
    + now apply step_settled.
Qed.

(** Every state that a run reaches from a mount is settled and refers
    to allocated objects only. *)
Lemma reachable_invariant (cmd : string) (p : Props)
  (store : gmap nat OllamaSettings) (free : nat) (l : list action) :
  match initialSettings p with Some x => (x < free)%nat | None => True end ->
  admissible_run cmd l (mount p store free) ->
  allocated (run cmd l (mount p store free))
  /\ settled (run cmd l (mount p store free)).
Proof.
  intros Hp Hadm. apply run_invariant; trivial.
  - now apply mount_allocated.
  - apply mount_settled.
Qed.

(** ** Records *)

Lemma get_spread_same (r : OllamaSettings) (f : field) (v : field_type f) :
  get f (spread_with r f v) = v.
Proof. now destruct f. Qed.

Lemma get_spread_other (r : OllamaSettings) (f g : field) (v : field_type f) :
  g <> f -> get g (spread_with r f v) = get g r.
Proof. now destruct f, g. Qed.

Lemma append_empty_r (s : string) : s +:+ "" = s.
Proof.
  induction s as [|c s IH]; [reflexivity|].
  change (String c (s +:+ "") = String c s). now rewrite IH.
Qed.

(** In manual mode the bootstrap effect never calls the owner. *)
Lemma effect_bootstrap_manual (p : Props) (w : World) :
  autoApply p = false -> effect_bootstrap p w = w.
Proof. intros H. unfold effect_bootstrap. now rewrite H. Qed.

(** An edit of a settled panel: the working record is the new object. *)
Lemma edit_settings (f : field) (v : field_type f) (w : World) :
  settled w ->
  let w' := render (props w) (handleSettingChange f v w) in
  settings w' = next w
  /\ working w' = spread_with (working w) f v
  /\ heap w' = <[next w := spread_with (working w) f v]> (heap w)
  /\ next w' = S (next w)
  /\ props w' = props w
  /\ frame_queue w' =
     (if autoApply (props w)
      then frame_queue w ++ [(onSettingsSave (props w), next w)]
      else frame_queue w).
Proof.
  intros [_ Hy] w'.
  pose proof (handleSettingChange_fields f v w)
    as (Hh & Hn & Hs & Hp & _ & Hm & _ & Hq & _).
  destruct (render_keeps (props w) (handleSettingChange f v w))
    as (Kh & Kn & Kp & _ & _ & _ & Kq & _).
  assert (Hset : settings w' = next w).
  { unfold w'. rewrite render_settings, Hm, Hy, sync_deps_eqb_refl.
    exact Hs. }
  split; [exact Hset|]. split.
  { unfold working, read. rewrite Hset. unfold w'. rewrite Kh, Hh.
    apply lookup_total_insert_eq. }
  unfold w'. repeat split; congruence.
Qed.

(* ===================================================================== *)
(** * The claims                                                          *)
(* ===================================================================== *)

(** ** Initialisation *)

(** C6. At mount the working record is the externally supplied initial
    settings object when there is one (the very object, by reference)
    and otherwise a new object holding the default record; mounting
    calls the owner neither at once nor through the frame queue, and
    leaves the objects of the owner as they are. *)
Theorem initialize_working_record
  (p : Props) (store : gmap nat OllamaSettings) (free : nat) :
  let w := mount p store free in
  settings w = default free (initialSettings p)
  /\ working w =
     match initialSettings p with
     | Some l => store !!! l
     | None => default_settings
     end
  /\ heap w =
     match initialSettings p with
     | Some _ => store
     | None => <[free := default_settings]> store
     end
  /\ pushes w = []
  /\ frame_queue w = [].
Proof.
  rewrite mount_idle. unfold initial_state.
  destruct (initialSettings p) as [l|] eqn:Hp; simpl; repeat split.
  unfold working, read. simpl. apply lookup_total_insert_eq.
Qed.

(** C10. Without external initial settings the working record is the
    literal of the source: model [""], temperature 0.7, topP 0.9,
    useFixedSeed false, seed 42, numCtx 2048.  The temperature lies in
    [0,2], topP in [0,1], numCtx is a positive integer, and the model is
    empty, so that the first fetched model is selected. *)
Theorem default_record
  (callback : nat) (auto : bool) (store : gmap nat OllamaSettings)
  (free : nat) (first : value) (rest : list value) :
  let p := {| onSettingsSave := callback; autoApply := auto;
              initialSettings := None |} in
  working (mount p store free) = default_settings
  /\ default_settings =
     {| model := VString ""; temperature := decimal false 7 (-1);
        topP := decimal false 9 (-1); useFixedSeed := false;
        seed := of_Z 42; numCtx := of_Z 2048 |}
  /\ temperature default_settings = Number "0.7"
  /\ topP default_settings = Number "0.9"
  /\ between 0 2 (temperature default_settings) = true
  /\ between 0 1 (topP default_settings) = true
  /\ is_integer (numCtx default_settings) = true
  /\ number_leb (of_Z 1) (numCtx default_settings) = true
  /\ truthy (model default_settings) = false
  /\ model (working (select_first_model (first :: rest)
                       (mount p store free))) = first.
Proof.
  intros p.
  assert (Hw : working (mount p store free) = default_settings).
  { rewrite mount_idle. unfold working, read. simpl.
    apply lookup_total_insert_eq. }
  split; [exact Hw|].
  do 8 (split; [vm_compute; reflexivity|]).
  unfold select_first_model. rewrite Hw. simpl.
  unfold working, read. simpl. now rewrite lookup_total_insert_eq.
Qed.

(** ** The externally supplied settings *)

(** C7. When the owner renders the panel with a settings object of
    another identity than that of the previous render, the working
    record becomes that object; when the reference is the one of the
    previous render, the render leaves the working record alone. *)
Theorem external_settings_sync (p : Props) (w : World) (l : nat) :
  settled w ->
  (initialSettings p = Some l -> initialSettings (props w) <> Some l ->
   settings (render p w) = l /\ working (render p w) = read w l)
  /\ (initialSettings p = initialSettings (props w) ->
      settings (render p w) = settings w
      /\ working (render p w) = working w).
Proof.
  intros [_ Hy]. split.
  - intros Hp Hne.
    assert (Hs : settings (render p w) = l).
    { rewrite render_settings, Hy, Hp.
      destruct (sync_deps_eqb _ _) eqn:E; trivial.
      apply sync_deps_eqb_eq in E. contradiction. }
    split; trivial. unfold working. now rewrite Hs, read_render.
  - intros Hp.
    assert (Hs : settings (render p w) = settings w).
    { now rewrite render_settings, Hy, Hp, sync_deps_eqb_refl. }
    split; trivial. unfold working. now rewrite Hs, read_render.
Qed.

Lemma external_settings_sync_witness :
  settings (render (fed_props false)
              (mount manual_props {[0%nat := llama3_settings]} 1)) = 0%nat
  /\ model (working (render (fed_props false)
              (mount manual_props {[0%nat := llama3_settings]} 1)))
     = VString "llama3".
Proof.
  destruct (external_settings_sync (fed_props false)
              (mount manual_props {[0%nat := llama3_settings]} 1) 0)
    as [H _].
  - apply mount_settled.
  - destruct H as [Hs Hw]; [reflexivity | discriminate |].
    split; [exact Hs|]. rewrite Hw. vm_compute. reflexivity.
Defined.

(** When the owner withdraws the settings object the working record
    stays: the sync effect runs and finds nothing to copy. *)
Lemma external_settings_withdrawn (p : Props) (w : World) :
  settled w -> initialSettings p = None ->
  settings (render p w) = settings w.
Proof.
  intros [_ Hy] Hp. rewrite render_settings, Hp.
  now destruct (sync_deps_eqb _ _).
Qed.

(** ** Edits *)

Lemma render_pushes_manual (p : Props) (w : World) :
  autoApply p = false -> pushes (render p w) = pushes w.
Proof.
  intros H. rewrite render_pushes, (effect_bootstrap_manual p w H).
  now destruct (bootstrap_deps_eqb _ _).
Qed.

(** The button of manual mode: one call of the owner, with the working
    record. *)
Lemma click_apply_manual (w : World) :
  settled w -> autoApply (props w) = false ->
  let w' := dispatch ClickApply w in
  pushes w' = pushes w ++ [(onSettingsSave (props w), settings w)]
  /\ settings w' = settings w /\ heap w' = heap w /\ props w' = props w.
Proof.
  intros [_ Hy] Ha. unfold dispatch. simpl.
  set (w1 := call_owner _ _ w).
  destruct (render_keeps (props w) w1) as (Kh & _ & Kp & _).
  change (props w1) with (props w).
  rewrite render_pushes_manual by exact Ha.
  rewrite render_settings.
  change (memo_sync w1) with (memo_sync w).
  rewrite Hy, sync_deps_eqb_refl. repeat split; trivial.
Qed.

Lemma dispatch_edit (ev : event) (f : field) (v : field_type f) (w : World) :
  edit_of ev = Some (existT f v) ->
  dispatch ev w = render (props w) (handleSettingChange f v w).
Proof. intros H. unfold dispatch. now rewrite handle_edit, H. Qed.

(** An edit in manual mode reaches the owner in no way. *)
Lemma manual_edit (ev : event) (f : field) (v : field_type f) (w : World) :
  settled w -> autoApply (props w) = false ->
  edit_of ev = Some (existT f v) ->
  let w' := dispatch ev w in
  settled w' /\ props w' = props w /\ pushes w' = pushes w
  /\ working w' = spread_with (working w) f v.
Proof.
  intros Hs Ha He. cbv zeta. rewrite (dispatch_edit ev f v w He).
  destruct (edit_settings f v w Hs) as (_ & Hw & _ & _ & Hp & _).
  pose proof (handleSettingChange_fields f v w)
    as (_ & _ & _ & Hp' & _ & _ & Hpush & _).
  split; [apply render_settles|]. split; [exact Hp|]. split; [|exact Hw].
  rewrite render_pushes_manual; trivial.
Qed.

(** C9. Whatever text the seed field or the context-size field
    delivers, empty and non-numeric text included, the edit goes through:
    the working record is the previous one with [Number(text)], a number
    (possibly [NaN], and [0] for the empty text), in the field; the
    other fields are untouched, so a record without undefined field
    remains one. *)
Theorem numeric_input_coerced (text : string) (w : World) :
  settled w ->
  let ws := dispatch (TypeSeed text) w in
  let wn := dispatch (TypeNumCtx text) w in
  working ws = spread_with (working w) Fseed (Number text)
  /\ working wn = spread_with (working w) FnumCtx (Number text)
  /\ seed (working ws) = Number text
  /\ numCtx (working wn) = Number text
  /\ populated (working ws) = populated (working w)
  /\ populated (working wn) = populated (working w)
  /\ Number "" = of_Z 0
  /\ Number "abc" = NaN.
Proof.
  intros Hs ws wn.
  destruct (edit_settings Fseed (Number text) w Hs) as (_ & H1 & _).
  destruct (edit_settings FnumCtx (Number text) w Hs) as (_ & H2 & _).
  change (working ws = spread_with (working w) Fseed (Number text)) in H1.
  change (working wn = spread_with (working w) FnumCtx (Number text)) in H2.
  rewrite H1, H2. repeat split.
Qed.

Lemma numeric_input_coerced_witness :
  seed (working (dispatch (TypeSeed "abc") alone_manual)) = NaN
  /\ numCtx (working (dispatch (TypeNumCtx "") alone_manual)) = of_Z 0.
Proof.
  split.
  - destruct (numeric_input_coerced "abc" alone_manual
                (mount_settled _ _ _)) as (_ & _ & H & _).
    rewrite H. vm_compute. reflexivity.
  - destruct (numeric_input_coerced "" alone_manual
                (mount_settled _ _ _)) as (_ & _ & _ & H & _).
    rewrite H. vm_compute. reflexivity.
Defined.

(** C3. An edit replaces the working record by a new object that has
    the new value in the named field and the old value in every other
    field, the old object staying as it was.  In manual mode, setting a
    temperature of [0,2] and a topP of [0,1] and pressing the button
    calls the owner once, with a record that has these two values and
    the model, useFixedSeed, seed and numCtx of before; the seed is kept
    whatever useFixedSeed is. *)
Theorem apply_field_then_commit (w : World) (t p : number) :
  settled w -> allocated w -> autoApply (props w) = false ->
  between 0 2 t = true -> between 0 1 p = true ->
  (forall (f : field) (v : field_type f),
     let w1 := render (props w) (handleSettingChange f v w) in
     get f (working w1) = v
     /\ (forall g, g <> f -> get g (working w1) = get g (working w))
     /\ settings w1 <> settings w
     /\ read w1 (settings w) = working w)
  /\ let w3 := dispatch ClickApply
                 (dispatch (SlideTopP p) (dispatch (SlideTemperature t) w)) in
     pushes w3 = pushes w ++ [(onSettingsSave (props w), settings w3)]
     /\ working w3 =
        {| model := model (working w); temperature := t; topP := p;
           useFixedSeed := useFixedSeed (working w);
           seed := seed (working w); numCtx := numCtx (working w) |}.
Proof.
  intros Hs [Hlt _] Ha _ _. split.
  - intros f v w1.
    destruct (edit_settings f v w Hs) as (Hset & Hw & Hh & _).
    fold w1 in Hset, Hw, Hh. rewrite Hw.
    split; [apply get_spread_same|].
    split; [intros g Hg; now apply get_spread_other|].
    split; [lia|].
    unfold read. rewrite Hh. apply lookup_total_insert_ne. lia.
  - destruct (manual_edit (SlideTemperature t) Ftemperature t w Hs Ha eq_refl)
      as (Hs1 & Hp1 & P1 & Hw1).
    set (w1 := dispatch (SlideTemperature t) w) in *.
    assert (Ha1 : autoApply (props w1) = false) by now rewrite Hp1.
    destruct (manual_edit (SlideTopP p) FtopP p w1 Hs1 Ha1 eq_refl)
      as (Hs2 & Hp2 & P2 & Hw2).
    set (w2 := dispatch (SlideTopP p) w1) in *.
    assert (Ha2 : autoApply (props w2) = false) by now rewrite Hp2.
    destruct (click_apply_manual w2 Hs2 Ha2) as (Hpush & Hset & Hh & _).
    cbv zeta. rewrite Hpush, Hset, P2, P1, Hp2, Hp1. split; trivial.
    unfold working at 1, read. rewrite Hset, Hh.
    change (heap w2 !!! settings w2) with (working w2).
    rewrite Hw2, Hw1. reflexivity.
Qed.

Lemma apply_field_then_commit_witness :
  pushes (dispatch ClickApply
            (dispatch (SlideTopP (decimal false 5 (-1)))
               (dispatch (SlideTemperature (decimal false 15 (-1)))
                  alone_manual)))
  = [(7, 2)]%nat
  /\ working (dispatch ClickApply
                (dispatch (SlideTopP (decimal false 5 (-1)))
                   (dispatch (SlideTemperature (decimal false 15 (-1)))
                      alone_manual)))
     = {| model := VString ""; temperature := decimal false 15 (-1);
          topP := decimal false 5 (-1); useFixedSeed := false;
          seed := of_Z 42; numCtx := of_Z 2048 |}.
Proof.
  destruct (apply_field_then_commit alone_manual
              (decimal false 15 (-1)) (decimal false 5 (-1)))
    as [_ [H1 H2]].
  - apply mount_settled.
  - now apply mount_allocated.
  - reflexivity.
  - vm_compute. reflexivity.
  - vm_compute. reflexivity.
  - split.
    + rewrite H1. vm_compute. reflexivity.
    + rewrite H2. vm_compute. reflexivity.
Defined.

(** ** The model list *)

Lemma select_first_model_unchanged (models : list value) (w : World) :
  (0 <? length models)%nat && negb (truthy (model (working w))) = false ->
  select_first_model models w = w.
Proof. intros H. unfold select_first_model. now rewrite H. Qed.

Lemma select_first_model_replaced (models : list value) (w : World) :
  (0 <? length models)%nat && negb (truthy (model (working w))) = true ->
  let w' := select_first_model models w in
  settings w' = next w
  /\ heap w' =
     <[next w := spread_with (working w) Fmodel (hd VUndefined models)]>
       (heap w)
  /\ next w' = S (next w).
Proof. intros H. unfold select_first_model. rewrite H. repeat split. Qed.

(** After [fetchModels] the store and the [settings] state are those
    the [try] or the [catch] block left: the render that follows copies
    nothing, the external settings being those of the last render. *)
Lemma fetchModels_success (cmd : string) (net : network)
  (models : list value) (w : World) :
  settled w -> fetch_models_list net = Ok models ->
  let w0 := select_first_model models
              (setError None (setAvailableModels models w)) in
  let w' := fetchModels cmd net w in
  settings w' = settings w0 /\ heap w' = heap w0 /\ next w' = next w0
  /\ props w' = props w /\ availableModels w' = models
  /\ error w' = None /\ loading w' = false
  /\ frame_queue w' = frame_queue w /\ console w' = console w.
Proof.
  intros [_ Hy] Hnet w0 w'. unfold w', fetchModels. rewrite Hnet. fold w0.
  pose proof (select_first_model_fields models
                (setError None (setAvailableModels models w)))
    as (Hp & _ & Hm & _ & Hq & _ & He & Ha & Hc & _).
  fold w0 in Hp, Hm, Hq, He, Ha, Hc. simpl in Hp, Hm, Hq, He, Ha, Hc.
  destruct (render_keeps (props w) (setLoading false w0))
    as (Kh & Kn & Kp & Kl & Ke & Ka & Kq & Kc).
  rewrite render_settings.
  change (memo_sync (setLoading false w0)) with (memo_sync w0).
  rewrite Hm, Hy, sync_deps_eqb_refl.
  rewrite Kh, Kn, Kp, Kl, Ke, Ka, Kq, Kc. simpl.
  repeat split; trivial.
Qed.

Lemma fetchModels_failure (cmd : string) (net : network) (err : exn)
  (w : World) :
  settled w -> fetch_models_list net = Throw err ->
  let w' := fetchModels cmd net w in
  error w' = Some ("Cannot connect to Ollama. " +:+ cmd)
  /\ availableModels w' = availableModels w
  /\ settings w' = settings w /\ heap w' = heap w /\ next w' = next w
  /\ pushes w' = pushes w /\ frame_queue w' = frame_queue w
  /\ loading w' = false /\ props w' = props w
  /\ console w' =
     console w ++ [("Error fetching models:",
                    match err with
                    | Error message => message
                    | Thrown _ => "Unknown error"
                    end)].
Proof.
  intros [Hb Hy] Hnet w'. unfold w', fetchModels. rewrite Hnet.
  set (w1 := setLoading false _).
  destruct (render_keeps (props w) w1)
    as (Kh & Kn & Kp & Kl & Ke & Ka & Kq & Kc).
  destruct (render_quiet w1) as [Qs Qp]; trivial.
  change (props w1) with (props w) in Qs, Qp.
  repeat split; trivial.
Qed.

(** C5. When the connectivity probe answers that the server is not
    connected, the exception raised in the [try] block is caught and
    [fetchModels] ends normally in the error state: the error is the
    message followed by the command that starts the server, the model
    list is what it was (empty, as it is from mount on), no model is
    selected, the store is untouched and the owner is called neither at
    once nor through the frame queue. *)
Theorem connectivity_failure
  (cmd : string) (net : network) (c : connection) (w : World) :
  settled w -> checkOllamaConnection net = Ok c -> connected c = false ->
  let w' := fetchModels cmd net w in
  error w' = Some ("Cannot connect to Ollama. " +:+ cmd)
  /\ (exists before after, error w' = Some (before +:+ cmd +:+ after))
  /\ availableModels w' = availableModels w
  /\ (forall p store free,
        availableModels (fetchModels cmd net (mount p store free)) = [])
  /\ settings w' = settings w /\ heap w' = heap w
  /\ pushes w' = pushes w /\ frame_queue w' = frame_queue w
  /\ loading w' = false
  /\ console w' =
     console w ++ [("Error fetching models:",
                    or_default (connection_error c)
                      "Failed to connect to Ollama")].
Proof.
  intros Hs Hc Hd w'.
  assert (Hnet : fetch_models_list net =
                 Throw (Error (or_default (connection_error c)
                                 "Failed to connect to Ollama"))).
  { unfold fetch_models_list. rewrite Hc. simpl. now rewrite Hd. }
  destruct (fetchModels_failure cmd net _ w Hs Hnet)
    as (He & Ha & Hset & Hh & _ & Hp & Hq & Hl & _ & Hcon).
  fold w' in He, Ha, Hset, Hh, Hp, Hq, Hl, Hcon.
  split; [exact He|]. split.
  { exists "Cannot connect to Ollama. ", "".
    now rewrite append_empty_r. }
  split; [exact Ha|]. split.
  { intros p store free.
    destruct (fetchModels_failure cmd net _ (mount p store free)
                (mount_settled p store free) Hnet) as (_ & -> & _).
    rewrite mount_idle. unfold initial_state.
    now destruct (initialSettings p). }
  repeat split; trivial.
Qed.

Lemma connectivity_failure_witness :
  error (fetchModels start_command unreachable alone_auto)
  = Some "Cannot connect to Ollama. ollama serve"
  /\ availableModels (fetchModels start_command unreachable alone_auto) = []
  /\ settings (fetchModels start_command unreachable alone_auto)
     = settings alone_auto
  /\ pushes (fetchModels start_command unreachable alone_auto) = []
  /\ frame_queue (fetchModels start_command unreachable alone_auto) = [].
Proof.
  destruct (connectivity_failure start_command unreachable
              {| connected := false;
                 connection_error := Some "connect ECONNREFUSED" |}
              alone_auto)
    as (He & _ & _ & Ha & Hs & Hh & Hp & Hq & _).
  - apply mount_settled.
  - reflexivity.
  - reflexivity.
  - rewrite He, Hs, Hp, Hq. unfold alone_auto at 1. rewrite Ha.
    repeat split.
Defined.

(** The two outcomes of the updater, seen after [fetchModels]. *)
Lemma fetchModels_selects (cmd : string) (net : network)
  (first : value) (rest : list value) (w : World) :
  settled w -> fetch_models_list net = Ok (first :: rest) ->
  truthy (model (working w)) = false ->
  let w' := fetchModels cmd net w in
  settings w' = next w
  /\ heap w' = <[next w := spread_with (working w) Fmodel first]> (heap w)
  /\ working w' = spread_with (working w) Fmodel first.
Proof.
  intros Hs Hnet Hm w'.
  destruct (fetchModels_success cmd net (first :: rest) w Hs Hnet)
    as (Hset & Hh & _).
  fold w' in Hset, Hh.
  set (wa := setError None (setAvailableModels (first :: rest) w)) in *.
  assert (Hc : (0 <? length (first :: rest))%nat
               && negb (truthy (model (working wa))) = true).
  { simpl. change (working wa) with (working w). now rewrite Hm. }
  destruct (select_first_model_replaced (first :: rest) wa Hc)
    as (R1 & R2 & _).
  rewrite R1 in Hset. rewrite R2 in Hh. simpl in Hset, Hh.
  change (working wa) with (working w) in Hh.
  split; [exact Hset|]. split; [exact Hh|].
  unfold working at 1, read. rewrite Hset, Hh.
  apply lookup_total_insert_eq.
Qed.

Lemma fetchModels_keeps (cmd : string) (net : network)
  (models : list value) (w : World) :
  settled w -> fetch_models_list net = Ok models ->
  models = [] \/ truthy (model (working w)) = true ->
  let w' := fetchModels cmd net w in
  settings w' = settings w /\ heap w' = heap w /\ working w' = working w.
Proof.
  intros Hs Hnet Hor w'.
  destruct (fetchModels_success cmd net models w Hs Hnet)
    as (Hset & Hh & _).
  fold w' in Hset, Hh.
  set (wa := setError None (setAvailableModels models w)) in *.
  assert (Hc : (0 <? length models)%nat
               && negb (truthy (model (working wa))) = false).
  { change (working wa) with (working w).
    destruct Hor as [-> | ->]; [reflexivity | apply andb_false_r]. }
  rewrite (select_first_model_unchanged models wa Hc) in Hset, Hh.
  simpl in Hset, Hh. split; [exact Hset|]. split; [exact Hh|].
  unfold working, read. now rewrite Hset, Hh.
Qed.

(** C1. After a successful fetch of the model list the working record
    gets the first model of the list exactly when its own model is empty
    at that moment and the list is not empty: then the working record
    is a new object, equal to the previous one but for the model; in
    every other case (empty list, or a model already there) the working
    record stays the object it was.  In both cases the previous object
    is not written to. *)
Theorem bootstrap_model_selection
  (cmd : string) (net : network) (models : list value) (w : World) :
  settled w -> allocated w -> fetch_models_list net = Ok models ->
  let w' := fetchModels cmd net w in
  (forall first rest,
     models = first :: rest -> truthy (model (working w)) = false ->
     settings w' = next w
     /\ working w' = spread_with (working w) Fmodel first
     /\ model (working w') = first)
  /\ (models = [] \/ truthy (model (working w)) = true ->
      settings w' = settings w /\ working w' = working w)
  /\ read w' (settings w) = working w.
Proof.
  intros Hs [Hlt _] Hnet w'. split; [|split].
  - intros first rest -> Hm.
    destruct (fetchModels_selects cmd net first rest w Hs Hnet Hm)
      as (Hset & _ & Hw).
    fold w' in Hset, Hw. rewrite Hw. now repeat split.
  - intros Hor.
    destruct (fetchModels_keeps cmd net models w Hs Hnet Hor)
      as (Hset & _ & Hw).
    now split.
  - destruct models as [|first rest].
    + destruct (fetchModels_keeps cmd net [] w Hs Hnet) as (_ & Hh & _);
        [now left|].
      unfold read. fold w' in Hh. now rewrite Hh.
    + destruct (truthy (model (working w))) eqn:Hm.
      * destruct (fetchModels_keeps cmd net (first :: rest) w Hs Hnet)
          as (_ & Hh & _); [now right|].
        unfold read. fold w' in Hh. now rewrite Hh.
      * destruct (fetchModels_selects cmd net first rest w Hs Hnet Hm)
          as (_ & Hh & _).
        unfold read. fold w' in Hh. rewrite Hh.
        apply lookup_total_insert_ne. lia.
Qed.

(** The two situations of the specification: the owner supplied the
    model [llama3], or an empty model, and the server lists [a], [b]. *)
Lemma bootstrap_model_selection_witness :
  model (working (fetchModels start_command (reachable models_a_b)
                    fed_llama3)) = VString "llama3"
  /\ model (working (fetchModels start_command (reachable models_a_b)
                       fed_empty)) = VString "a".
Proof.
  split.
  - destruct (bootstrap_model_selection start_command
                (reachable models_a_b) [VString "a"; VString "b"]
                fed_llama3)
      as (_ & H & _).
    + apply mount_settled.
    + apply mount_allocated. simpl. lia.
    + reflexivity.
    + destruct H as [_ ->]; [right|]; vm_compute; reflexivity.
  - destruct (bootstrap_model_selection start_command
                (reachable models_a_b) [VString "a"; VString "b"]
                fed_empty)
      as (H & _).
    + apply mount_settled.
    + apply mount_allocated. simpl. lia.
    + reflexivity.
    + destruct (H (VString "a") [VString "b"]) as (_ & _ & ->);
        [reflexivity | vm_compute; reflexivity | reflexivity].
Defined.

Lemma models_of_absent (data : value) :
  models_absent data = true -> models_of data = Ok [].
Proof.
  destruct data as [| |b|n|s|elements|properties]; simpl;
    try discriminate; try reflexivity.
  unfold models_of. simpl.
  destruct (own_property "models" properties) as [[]|]; simpl;
    try discriminate; reflexivity.
Qed.

(** C8, as the code has it.  When the server is connected and the body
    it returns is a value with properties (any JSON value but [null])
    whose [models] is missing or [null], the model list becomes empty,
    there is no error, and the working record stays the object it
    was. *)
Theorem absent_models_empty_list
  (cmd : string) (net : network) (c : connection) (data : value)
  (w : World) :
  settled w -> checkOllamaConnection net = Ok c -> connected c = true ->
  fetchWithCORS net = Ok (Ok data) -> models_absent data = true ->
  let w' := fetchModels cmd net w in
  availableModels w' = [] /\ error w' = None /\ loading w' = false
  /\ settings w' = settings w /\ heap w' = heap w.
Proof.
  intros Hs Hc Hd Ht Hm w'.
  assert (Hnet : fetch_models_list net = Ok []).
  { unfold fetch_models_list. rewrite Hc. simpl. rewrite Hd, Ht. simpl.
    now apply models_of_absent. }
  destruct (fetchModels_success cmd net [] w Hs Hnet)
    as (Hset & Hh & _ & _ & Ha & He & Hl & _).
  now repeat split.
Qed.

Lemma absent_models_empty_list_witness :
  availableModels (fetchModels start_command (reachable (VObject []))
                     alone_auto) = []
  /\ error (fetchModels start_command (reachable (VObject [])) alone_auto)
     = None.
Proof.
  destruct (absent_models_empty_list start_command (reachable (VObject []))
              {| connected := true; connection_error := None |}
              (VObject []) alone_auto)
    as (Ha & He & _); try reflexivity.
  - apply mount_settled.
  - now split.
Defined.

(** C8, as stated, fails: the body [null] has no [models], and the body
    [{"models": 5}] has a malformed one; both put the panel in the error
    state. *)
Lemma absent_models_counterexample :
  error (fetchModels start_command (reachable VNull) alone_auto)
  = Some "Cannot connect to Ollama. ollama serve"
  /\ error (fetchModels start_command (reachable malformed_models)
              alone_auto)
     = Some "Cannot connect to Ollama. ollama serve".
Proof. vm_compute. split; reflexivity. Qed.

(** ** Pushes in auto-apply mode *)

Lemma number_eqb_eq (a b : number) : number_eqb a b = true -> a = b.
Proof.
  destruct a as [|s|s m e], b as [|t|t n f]; simpl;
    try discriminate; trivial.
  - intros H. apply Bool.eqb_prop in H. now subst.
  - intros H. apply andb_true_iff in H as [H He].
    apply andb_true_iff in H as [Hs Hm].
    apply Bool.eqb_prop in Hs. apply Z.eqb_eq in Hm, He. now subst.
Qed.

(** Values that the dependency comparison holds equal are both truthy
    or both falsy. *)
Lemma value_eqb_truthy (a b : value) :
  value_eqb a b = true -> truthy a = truthy b.
Proof.
  destruct a, b; simpl; try discriminate; trivial.
  - intros H. now apply Bool.eqb_prop in H.
  - intros H. apply number_eqb_eq in H. now subst.
  - intros H. apply String.eqb_eq in H. now subst.
Qed.

(** A render in which none of the four dependencies of the bootstrap
    effect has changed calls the owner not at all. *)
Lemma render_same_deps_quiet (p : Props) (w : World) :
  settled w -> bootstrap_deps p w = bootstrap_deps (props w) w ->
  pushes (render p w) = pushes w.
Proof.
  intros [Hb _] Hd.
  now rewrite render_pushes, Hb, Hd, bootstrap_deps_eqb_refl.
Qed.

(** An edit leaves the external object, which is allocated, alone. *)
Lemma initial_model_edit (f : field) (v : field_type f) (w : World) :
  allocated w ->
  initial_model (props w) (handleSettingChange f v w)
  = initial_model (props w) w.
Proof.
  intros [_ He]. unfold initial_model.
  destruct (initialSettings (props w)) as [l|]; trivial.
  rewrite read_handleSettingChange; trivial. lia.
Qed.

(** C2, as the code has it.  In auto-apply mode an edit that leaves the
    model as it is (every edit of another field, such as numCtx), or
    empties it, or is made while the externally supplied settings have
    a model, replaces the working record at once, calls the owner not
    at all during the update, and queues one call for the next
    animation frame, with the new record; the frame makes that call,
    after those that were waiting. *)
Theorem auto_apply_edit_deferred
  (ev : event) (f : field) (v : field_type f) (w : World) :
  settled w -> allocated w -> autoApply (props w) = true ->
  edit_of ev = Some (existT f v) ->
  model (spread_with (working w) f v) = model (working w)
  \/ truthy (model (spread_with (working w) f v)) = false
  \/ truthy (initial_model (props w) w) = true ->
  let w1 := dispatch ev w in
  let call := (onSettingsSave (props w), settings w1) in
  working w1 = spread_with (working w) f v
  /\ pushes w1 = pushes w
  /\ frame_queue w1 = frame_queue w ++ [call]
  /\ pushes (animation_frame w1) = pushes w ++ frame_queue w ++ [call]
  /\ frame_queue (animation_frame w1) = [].
Proof.
  intros Hs Hal Ha He Hf. cbv zeta.
  rewrite (dispatch_edit ev f v w He).
  destruct (edit_settings f v w Hs) as (Hset & Hw & _ & _ & _ & Hq).
  rewrite Ha in Hq.
  set (h := handleSettingChange f v w) in *.
  pose proof (handleSettingChange_fields f v w)
    as (_ & _ & _ & Hp & Hm & _ & Hpush & _).
  fold h in Hp, Hm, Hpush.
  assert (Hwh : working h = spread_with (working w) f v)
    by apply working_handleSettingChange.
  assert (Hih : initial_model (props w) h = initial_model (props w) w)
    by now apply initial_model_edit.
  assert (Hquiet : pushes (render (props w) h) = pushes w).
  { rewrite render_pushes, Hm, (proj1 Hs).
    destruct (bootstrap_deps_eqb _ _) eqn:E; [exact Hpush|].
    destruct Hf as [Hf | [Hf | Hf]].
    - exfalso. revert E. unfold bootstrap_deps.
      rewrite Hwh, Hih, Hf.
      change (bootstrap_deps_eqb (bootstrap_deps (props w) w)
                (bootstrap_deps (props w) w) = false -> False).
      now rewrite bootstrap_deps_eqb_refl.
    - unfold effect_bootstrap. rewrite Hwh, Hf.
      now rewrite andb_false_r.
    - unfold effect_bootstrap. rewrite Hih, Hf.
      now rewrite andb_false_r. }
  rewrite Hw, Hquiet, Hq, Hset. unfold animation_frame. simpl.
  rewrite Hquiet, Hq. repeat split.
Qed.

Lemma auto_apply_edit_deferred_witness :
  numCtx (working (dispatch (TypeNumCtx "4096") alone_auto)) = of_Z 4096
  /\ pushes (dispatch (TypeNumCtx "4096") alone_auto) = []
  /\ frame_queue (dispatch (TypeNumCtx "4096") alone_auto) = [(7, 1)]%nat
  /\ pushes (animation_frame (dispatch (TypeNumCtx "4096") alone_auto))
     = [(7, 1)]%nat.
Proof.
  destruct (auto_apply_edit_deferred (TypeNumCtx "4096") FnumCtx
              (Number "4096") alone_auto)
    as (Hw & Hp & Hq & Hf & _).
  - apply mount_settled.
  - now apply mount_allocated.
  - reflexivity.
  - reflexivity.
  - left. reflexivity.
  - rewrite Hw, Hp, Hq, Hf. vm_compute. repeat split.
Defined.

(** C2, as stated, fails.  The panel is used alone in auto-apply mode
    and the model [a] was selected from the fetched list; the user picks
    [b].  The bootstrap effect of the render that the edit causes calls
    the owner during the update, and the animation frame calls it
    again: two calls for one edit. *)
Lemma auto_apply_edit_counterexample :
  autoApply (props alone_auto_a) = true
  /\ offered (SelectModel (VString "b")) alone_auto_a = true
  /\ pushes alone_auto_a = [(7, 1)]%nat
  /\ pushes (dispatch (SelectModel (VString "b")) alone_auto_a)
     = [(7, 1); (7, 2)]%nat
  /\ pushes (animation_frame
               (dispatch (SelectModel (VString "b")) alone_auto_a))
     = [(7, 1); (7, 2); (7, 2)]%nat.
Proof. vm_compute. repeat split. Qed.

(** C4, as the code has it.  In auto-apply mode, the externally
    supplied settings having no model and the working record none
    either, a fetch that selects a non-empty first model calls the
    owner once, with the new working record.  After that a render
    calls the owner again only if [autoApply], the model of the working
    record, the identity of [onSettingsSave] or the external model
    differs from the previous render. *)
Theorem bootstrap_push_once
  (cmd : string) (net : network) (first : value) (rest : list value)
  (w : World) :
  settled w -> allocated w -> autoApply (props w) = true ->
  truthy (initial_model (props w) w) = false ->
  truthy (model (working w)) = false -> truthy first = true ->
  fetch_models_list net = Ok (first :: rest) ->
  let w' := fetchModels cmd net w in
  pushes w' = pushes w ++ [(onSettingsSave (props w), settings w')]
  /\ working w' = spread_with (working w) Fmodel first
  /\ frame_queue w' = frame_queue w
  /\ (forall p, bootstrap_deps p w' = bootstrap_deps (props w') w' ->
        pushes (render p w') = pushes w').
Proof.
  intros Hs Hal Ha Hi Hm Hf Hnet w'.
  destruct (fetchModels_selects cmd net first rest w Hs Hnet Hm)
    as (Hset & _ & Hw).
  fold w' in Hset, Hw.
  destruct (fetchModels_success cmd net (first :: rest) w Hs Hnet)
    as (_ & _ & _ & _ & _ & _ & _ & Hq & _).
  fold w' in Hq.
  split; [|split; [exact Hw|split; [exact Hq|]]].
  - rewrite Hset. unfold w', fetchModels. rewrite Hnet.
    set (wa := setError None (setAvailableModels (first :: rest) w)).
    assert (Hc : (0 <? length (first :: rest))%nat
                 && negb (truthy (model (working wa))) = true).
    { simpl. change (working wa) with (working w). now rewrite Hm. }
    destruct (select_first_model_replaced (first :: rest) wa Hc)
      as (R1 & R2 & _).
    pose proof (select_first_model_fields (first :: rest) wa)
      as (Fp & Fb & _ & Fpush & _).
    set (w0 := select_first_model (first :: rest) wa) in *.
    cbv zeta in Fp, Fb, Fpush. simpl in R1, R2, Fp, Fb, Fpush.
    assert (Hmodel : model (working (setLoading false w0)) = first).
    { unfold working, read. simpl. rewrite R1, R2.
      now rewrite lookup_total_insert_eq. }
    assert (Hinit : initial_model (props w) (setLoading false w0)
                    = initial_model (props w) w).
    { unfold initial_model, read. simpl. rewrite R2.
      destruct Hal as [_ He].
      destruct (initialSettings (props w)) as [l|]; trivial.
      rewrite lookup_total_insert_ne; trivial. lia. }
    rewrite render_pushes.
    change (memo_bootstrap (setLoading false w0)) with (memo_bootstrap w0).
    rewrite Fb, (proj1 Hs).
    assert (E : bootstrap_deps_eqb (bootstrap_deps (props w) w)
                  (bootstrap_deps (props w) (setLoading false w0)) = false).
    { unfold bootstrap_deps. rewrite Hmodel. simpl.
      destruct (value_eqb (model (working w)) first) eqn:Ev.
      - apply value_eqb_truthy in Ev. congruence.
      - now rewrite andb_false_r. }
    rewrite E. unfold effect_bootstrap.
    rewrite Hmodel, Hinit, Ha, Hf, Hi. simpl.
    now rewrite Fpush, R1.
  - intros p Hd. apply render_same_deps_quiet; trivial.
    apply render_settles.
Qed.

Lemma bootstrap_push_once_witness :
  pushes (fetchModels start_command (reachable models_a_b) alone_auto)
  = [(7, 1)]%nat
  /\ model (working (fetchModels start_command (reachable models_a_b)
                       alone_auto)) = VString "a"
  /\ pushes (render auto_props
               (fetchModels start_command (reachable models_a_b)
                  alone_auto))
     = [(7, 1)]%nat.
Proof.
  destruct (bootstrap_push_once start_command (reachable models_a_b)
              (VString "a") [VString "b"] alone_auto)
    as (Hp & Hw & _ & Hr); try reflexivity.
  - apply mount_settled.
  - now apply mount_allocated.
  - split; [|split].
    + rewrite Hp. reflexivity.
    + rewrite Hw. reflexivity.
    + rewrite Hr by reflexivity. rewrite Hp. reflexivity.
Defined.

(** C4, as stated, fails.  The panel is used alone in auto-apply mode
    and the bootstrap effect has reported the model [a].  The owner
    renders the panel again with a new function for [onSettingsSave],
    all else being equal: the same record is reported a second time.
    Likewise when the user then picks [b]: the model was not empty
    before, and the effect reports the record at once. *)
Lemma bootstrap_push_counterexample :
  pushes alone_auto_a = [(7, 1)]%nat
  /\ model (working (render new_callback_props alone_auto_a))
     = model (working alone_auto_a)
  /\ pushes (render new_callback_props alone_auto_a)
     = [(7, 1); (8, 1)]%nat
  /\ pushes (dispatch (SelectModel (VString "b"))
               (render new_callback_props alone_auto_a))
     = [(7, 1); (8, 1); (8, 2)]%nat.
Proof. vm_compute. repeat split. Qed.

(* ===================================================================== *)
(** * Further properties of the panel                                     *)
(* ===================================================================== *)

(** ** The store along a run *)

Lemma step_preserves_objects (cmd : string) (a : action) (w : World) (l : nat) :
  (l < next w)%nat ->
  read (step cmd a w) l = read w l /\ (next w <= next (step cmd a w))%nat.
Proof.
  intros Hl. destruct a as [ev| |net|p|r]; simpl.
  - unfold dispatch. rewrite read_render.
    destruct (render_keeps (props w) (handle ev w)) as (_ & -> & _).
    rewrite handle_edit. destruct (edit_of ev) as [[f v]|].
    + destruct (handleSettingChange_fields f v w) as (_ & -> & _).
      split; [|lia]. apply read_handleSettingChange. lia.
    + split; [reflexivity | simpl; lia].
  - split; [reflexivity | simpl; lia].
  - unfold fetchModels. rewrite read_render.
    match goal with
    | |- context [render (props w) ?x] =>
        destruct (render_keeps (props w) x) as (_ & -> & _)
    end.
    destruct (fetch_models_list net) as [models|err].
    + unfold select_first_model. destruct (_ && _); simpl.
      * split; [|lia]. unfold read. simpl.
        apply lookup_total_insert_ne. lia.
      * split; [reflexivity | lia].
    + split; [reflexivity | simpl; lia].
  - rewrite read_render.
    destruct (render_keeps p w) as (_ & -> & _). split; [reflexivity | lia].
  - split; [|simpl; lia]. apply read_alloc_old. lia.
Qed.

(** X1. Along every run the store only grows: an object that exists
    keeps its content whatever the user, the network and the owner do,
    so the settings object the owner supplied, and every record it was
    handed, stay as they were. *)
Theorem run_preserves_objects
  (cmd : string) (acts : list action) (w : World) (l : nat) :
  (l < next w)%nat ->
  read (run cmd acts w) l = read w l
  /\ (next w <= next (run cmd acts w))%nat.
Proof.
  revert w. induction acts as [|a acts IH]; intros w Hl; simpl.
  - split; [reflexivity | lia].
  - destruct (step_preserves_objects cmd a w l Hl) as [Hr Hn].
    destruct (IH (step cmd a w)) as [Hr' Hn']; [lia|].
    fold (run cmd acts (step cmd a w)) in *.
    split; [congruence | lia].
Qed.

Lemma run_preserves_objects_witness :
  read (run start_command
          [Fetched (reachable models_a_b);
           User (SlideTemperature (decimal false 15 (-1)));
           User (SelectModel (VString "b")); User ClickApply; Frame]
          fed_llama3) 0
  = llama3_settings.
Proof.
  destruct (run_preserves_objects start_command
              [Fetched (reachable models_a_b);
               User (SlideTemperature (decimal false 15 (-1)));
               User (SelectModel (VString "b")); User ClickApply; Frame]
              fed_llama3 0) as [H _].
  - vm_compute. lia.
  - rewrite H. vm_compute. reflexivity.
Defined.

(** ** Manual mode along a run *)

Lemma fetchModels_pushes_manual (cmd : string) (net : network) (w : World) :
  autoApply (props w) = false ->
  let w' := fetchModels cmd net w in
  pushes w' = pushes w /\ frame_queue w' = frame_queue w
  /\ props w' = props w.
Proof.
  intros Ha. unfold fetchModels.
  match goal with
  | |- context [render (props w) ?x] =>
      destruct (render_keeps (props w) x) as (_ & _ & Kp & _ & _ & _ & Kq & _);
      cbv zeta; rewrite Kp, Kq, (render_pushes_manual (props w) x Ha)
  end.
  destruct (fetch_models_list net) as [models|err]; simpl.
  - pose proof (select_first_model_fields models
                  (setError None (setAvailableModels models w)))
      as (_ & _ & _ & Hp & Hq & _).
    now rewrite Hp, Hq.
  - now repeat split.
Qed.

Lemma step_manual (cmd : string) (a : action) (w : World) :
  autoApply (props w) = false -> frame_queue w = [] ->
  keeps_manual a = true ->
  let w' := step cmd a w in
  autoApply (props w') = false /\ frame_queue w' = []
  /\ pushes w' =
     pushes w ++ (if is_click a
                  then [(onSettingsSave (props w), settings w)] else []).
Proof.
  intros Ha Hq Hk. destruct a as [ev| |net|p|r]; simpl in *.
  - unfold dispatch.
    destruct (render_keeps (props w) (handle ev w))
      as (_ & _ & Kp & _ & _ & _ & Kq & _).
    rewrite Kp, Kq, (render_pushes_manual _ _ Ha).
    split; [exact Ha|].
    destruct ev; simpl;
      try (unfold handleSettingChange; rewrite Ha; simpl;
           rewrite app_nil_r; now split).
    now split.
  - rewrite Hq, !app_nil_r. now repeat split.
  - destruct (fetchModels_pushes_manual cmd net w Ha) as (-> & -> & ->).
    rewrite app_nil_r. now repeat split.
  - destruct (render_keeps p w) as (_ & _ & Kp & _ & _ & _ & Kq & _).
    apply negb_true_iff in Hk.
    rewrite Kp, Kq, (render_pushes_manual _ _ Hk), app_nil_r.
    now repeat split.
  - rewrite app_nil_r. now repeat split.
Qed.

(** X2. In manual mode the owner hears of the panel through the button
    alone: along a run in which the owner leaves auto-apply off, every
    press of the button is one call and nothing else is, no fetch, edit,
    render or animation frame calls the owner, and no call is ever left
    waiting for a frame. *)
Theorem manual_mode_calls (cmd : string) (acts : list action) (w : World) :
  autoApply (props w) = false -> frame_queue w = [] ->
  forallb keeps_manual acts = true ->
  let w' := run cmd acts w in
  length (pushes w') = (length (pushes w) + length (List.filter is_click acts))%nat
  /\ frame_queue w' = []
  /\ autoApply (props w') = false.
Proof.
  revert w. induction acts as [|a acts IH]; intros w Ha Hq Hk; simpl.
  - repeat split; trivial; lia.
  - simpl in Hk. apply andb_true_iff in Hk as [Hk1 Hk2].
    destruct (step_manual cmd a w Ha Hq Hk1) as (Ha' & Hq' & Hp').
    destruct (IH (step cmd a w) Ha' Hq' Hk2) as (IH1 & IH2 & IH3).
    fold (run cmd acts (step cmd a w)) in *.
    split; [|now split].
    rewrite IH1, Hp', length_app.
    destruct (is_click a); simpl; lia.
Qed.

Lemma manual_mode_calls_witness :
  length (pushes (run start_command
                    [Fetched (reachable models_a_b);
                     User (SelectModel (VString "b"));
                     User (TypeNumCtx "4096"); Frame;
                     User ClickApply; OwnerRenders (fed_props false);
                     User ClickApply]
                    fed_empty)) = 2%nat.
Proof.
  destruct (manual_mode_calls start_command
              [Fetched (reachable models_a_b);
               User (SelectModel (VString "b"));
               User (TypeNumCtx "4096"); Frame;
               User ClickApply; OwnerRenders (fed_props false);
               User ClickApply]
              fed_empty) as (H & _).
  - reflexivity.
  - reflexivity.
  - reflexivity.
  - rewrite H. reflexivity.
Defined.

(** ** The menu along a run *)

Lemma step_keeps_menu (cmd : string) (a : action) (w : World) :
  is_fetch a = false ->
  let w' := step cmd a w in
  loading w' = loading w /\ error w' = error w
  /\ availableModels w' = availableModels w.
Proof.
  intros Hf. destruct a as [ev| |net|p|r]; simpl in *.
  - unfold dispatch.
    destruct (render_keeps (props w) (handle ev w))
      as (_ & _ & _ & -> & -> & -> & _).
    rewrite handle_edit. destruct (edit_of ev) as [[f v]|].
    + now destruct (handleSettingChange_fields f v w)
        as (_ & _ & _ & _ & _ & _ & _ & _ & -> & -> & ->).
    + now repeat split.
  - now repeat split.
  - discriminate.
  - now destruct (render_keeps p w) as (_ & _ & _ & -> & -> & -> & _).
  - now repeat split.
Qed.

(** X3. What the Select offers changes only when [fetchModels] ends:
    along a run without that, the menu stays what it was (the loading
    item from mount on, and later the models or the error for good),
    and a model can be picked only from a menu of models, never while
    the menu shows the loading item or the error. *)
Theorem menu_changes_with_fetch_only
  (cmd : string) (acts : list action) (w : World) (v : value) :
  forallb (fun a => negb (is_fetch a)) acts = true ->
  let w' := run cmd acts w in
  menu_of w' = menu_of w
  /\ (offered (SelectModel v) w' = true ->
      exists items, menu_of w = MenuModels items
                    /\ existsb (value_eqb v) items = true).
Proof.
  intros Hf w'.
  assert (H : loading w' = loading w /\ error w' = error w
              /\ availableModels w' = availableModels w).
  { unfold w'. clear w'. revert w.
    induction acts as [|a acts IH]; intros w; simpl; [now repeat split|].
    simpl in Hf. apply andb_true_iff in Hf as [Hf1 Hf2].
    apply negb_true_iff in Hf1.
    destruct (step_keeps_menu cmd a w Hf1) as (H1 & H2 & H3).
    destruct (IH Hf2 (step cmd a w)) as (I1 & I2 & I3).
    fold (run cmd acts (step cmd a w)) in *.
    repeat split; congruence. }
  destruct H as (Hl & He & Ha).
  split.
  - unfold menu_of. now rewrite Hl, He, Ha.
  - unfold offered, menu_of. rewrite Hl, He, Ha.
    destruct (loading w); simpl; [discriminate|].
    destruct (error w) as [message|]; simpl.
    + destruct (String.eqb message ""); simpl; [|discriminate].
      intros H. now exists (availableModels w).
    + intros H. now exists (availableModels w).
Qed.

Lemma menu_changes_with_fetch_only_witness :
  menu_of (run start_command
             [User (TypeNumCtx "4096"); Frame;
              OwnerRenders new_callback_props; User (CheckFixedSeed true)]
             alone_auto) = MenuLoading.
Proof.
  destruct (menu_changes_with_fetch_only start_command
              [User (TypeNumCtx "4096"); Frame;
               OwnerRenders new_callback_props; User (CheckFixedSeed true)]
              alone_auto VNull) as [H _]; [reflexivity|].
  rewrite H. reflexivity.
Defined.

(** ** The end of [fetchModels] *)

(** After [fetchModels] the working record is the one the [try] block
    left. *)
Lemma fetchModels_pushes (cmd : string) (net : network)
  (models : list value) (w : World) :
  settled w -> fetch_models_list net = Ok models ->
  let w' := fetchModels cmd net w in
  truthy (model (working w')) = false -> pushes w' = pushes w.
Proof.
  intros Hs Hnet w' Hm.
  destruct (fetchModels_success cmd net models w Hs Hnet) as (Hset & Hh & _).
  fold w' in Hset, Hh.
  unfold w', fetchModels. rewrite Hnet.
  set (w0 := select_first_model models
               (setError None (setAvailableModels models w))) in *.
  pose proof (select_first_model_fields models
                (setError None (setAvailableModels models w)))
    as (_ & _ & _ & Hp & _).
  fold w0 in Hp. simpl in Hp.
  rewrite render_pushes.
  destruct (bootstrap_deps_eqb _ _); [exact Hp|].
  unfold effect_bootstrap.
  assert (Hw : working (setLoading false w0) = working w').
  { unfold working, read. simpl. now rewrite Hset, Hh. }
  rewrite Hw, Hm, andb_false_r. exact Hp.
Qed.

(** X4. However [fetchModels] ends, the loading item goes.  When the
    model names were obtained the menu offers exactly them and a
    previous error is cleared.  When anything failed (the probe or the
    request rejected, the server not connected, the body not JSON or not
    of the expected shape) the menu shows one and the same message with
    the start command; the cause goes to the console only, the model
    list and the working record stay, and the owner is not called. *)
Theorem fetch_outcome (cmd : string) (net : network) (w : World) :
  settled w ->
  let w' := fetchModels cmd net w in
  loading w' = false
  /\ match fetch_models_list net with
     | Ok models =>
         menu_of w' = MenuModels models /\ error w' = None
         /\ console w' = console w
     | Throw err =>
         menu_of w' = MenuError ("Cannot connect to Ollama. " +:+ cmd)
         /\ availableModels w' = availableModels w
         /\ settings w' = settings w /\ heap w' = heap w
         /\ pushes w' = pushes w /\ frame_queue w' = frame_queue w
         /\ console w' =
            console w ++ [("Error fetching models:",
                           match err with
                           | Error message => message
                           | Thrown _ => "Unknown error"
                           end)]
     end.
Proof.
  intros Hs w'. destruct (fetch_models_list net) as [models|err] eqn:Hnet.
  - destruct (fetchModels_success cmd net models w Hs Hnet)
      as (_ & _ & _ & _ & Ha & He & Hl & _ & Hc).
    fold w' in Ha, He, Hl, Hc.
    unfold menu_of. rewrite Hl, He, Ha. now repeat split.
  - destruct (fetchModels_failure cmd net err w Hs Hnet)
      as (He & Ha & Hset & Hh & _ & Hp & Hq & Hl & _ & Hc).
    fold w' in He, Ha, Hset, Hh, Hp, Hq, Hl, Hc.
    unfold menu_of. rewrite Hl, He. now repeat split.
Qed.

Lemma fetch_outcome_witness :
  menu_of (fetchModels start_command
             {| checkOllamaConnection := Throw (Thrown VNull);
                fetchWithCORS := Ok (Ok models_a_b) |}
             alone_auto_a)
  = MenuError "Cannot connect to Ollama. ollama serve"
  /\ availableModels
       (fetchModels start_command
          {| checkOllamaConnection := Throw (Thrown VNull);
             fetchWithCORS := Ok (Ok models_a_b) |}
          alone_auto_a)
     = [VString "a"; VString "b"].
Proof.
  destruct (fetch_outcome start_command
              {| checkOllamaConnection := Throw (Thrown VNull);
                 fetchWithCORS := Ok (Ok models_a_b) |}
              alone_auto_a) as (_ & H).
  - apply render_settles.
  - assert (E : fetch_models_list
                  {| checkOllamaConnection := Throw (Thrown VNull);
                     fetchWithCORS := Ok (Ok models_a_b) |}
                = Throw (Thrown VNull)) by reflexivity.
    rewrite E in H. destruct H as (Hm & Ha & _). split.
    + exact Hm.
    + rewrite Ha. reflexivity.
Defined.

(** ** The names in the payload *)

Lemma get_name (m : value) :
  nullish m = false -> get_member "name" m = Ok (name_of m).
Proof. now destruct m. Qed.

Lemma map_names (elements : list value) :
  forallb (fun m => negb (nullish m)) elements = true ->
  map_outcome (get_member "name") elements = Ok (map name_of elements).
Proof.
  induction elements as [|m r IH]; simpl; [reflexivity|].
  intros H. apply andb_true_iff in H as [Hm Hr].
  apply negb_true_iff in Hm.
  now rewrite (get_name m Hm), IH.
Qed.

Lemma map_names_throws (elements : list value) :
  existsb nullish elements = true ->
  exists e, map_outcome (get_member "name") elements = Throw e.
Proof.
  induction elements as [|m r IH]; simpl; [discriminate|].
  destruct (nullish m) eqn:Hm; simpl.
  - intros _. destruct m; try discriminate; eexists; reflexivity.
  - intros Hr. destruct (IH Hr) as [e He].
    rewrite (get_name m Hm). simpl. rewrite He. now exists e.
Qed.

Lemma fetch_models_list_array (net : network) (c : connection)
  (ps : list (string * value)) (elements : list value) :
  checkOllamaConnection net = Ok c -> connected c = true ->
  fetchWithCORS net = Ok (Ok (VObject ps)) ->
  own_property "models" ps = Some (VArray elements) ->
  fetch_models_list net = map_outcome (get_member "name") elements.
Proof.
  intros Hc Hd Ht Hm.
  unfold fetch_models_list. rewrite Hc. simpl. rewrite Hd, Ht. simpl.
  unfold models_of. simpl. now rewrite Hm.
Qed.

(** X5. From a body whose [models] is an array the menu gets one entry
    per element, in the order of the array: the [name] of the element,
    or [undefined] for an element that has none; other properties are
    ignored.  One [null] element anywhere makes the whole fetch fail:
    the error state, and the previous list kept. *)
Theorem model_names_extracted
  (cmd : string) (net : network) (c : connection)
  (ps : list (string * value)) (elements : list value) (w : World) :
  settled w -> checkOllamaConnection net = Ok c -> connected c = true ->
  fetchWithCORS net = Ok (Ok (VObject ps)) ->
  own_property "models" ps = Some (VArray elements) ->
  let w' := fetchModels cmd net w in
  (forallb (fun m => negb (nullish m)) elements = true ->
   availableModels w' = map name_of elements /\ error w' = None)
  /\ (existsb nullish elements = true ->
      error w' = Some ("Cannot connect to Ollama. " +:+ cmd)
      /\ availableModels w' = availableModels w).
Proof.
  intros Hs Hc Hd Ht Hm w'.
  pose proof (fetch_models_list_array net c ps elements Hc Hd Ht Hm) as Hf.
  split.
  - intros Hall. rewrite (map_names elements Hall) in Hf.
    now destruct (fetchModels_success cmd net _ w Hs Hf)
      as (_ & _ & _ & _ & Ha & He & _).
  - intros Hex. destruct (map_names_throws elements Hex) as [e He].
    rewrite He in Hf.
    now destruct (fetchModels_failure cmd net e w Hs Hf) as (H1 & H2 & _).
Qed.

Lemma model_names_extracted_witness :
  availableModels
    (fetchModels start_command
       (reachable
          (VObject [("models",
                     VArray [VObject [("name", VString "a");
                                      ("size", VNumber (of_Z 7))];
                             VObject [("size", VNumber (of_Z 9))]])]))
       alone_manual)
  = [VString "a"; VUndefined]
  /\ error
       (fetchModels start_command
          (reachable
             (VObject [("models",
                        VArray [VObject [("name", VString "a")]; VNull])]))
          alone_manual)
     = Some "Cannot connect to Ollama. ollama serve".
Proof.
  split.
  - destruct (model_names_extracted start_command
                (reachable
                   (VObject [("models",
                              VArray [VObject [("name", VString "a");
                                               ("size", VNumber (of_Z 7))];
                                      VObject [("size", VNumber (of_Z 9))]])]))
                {| connected := true; connection_error := None |}
                [("models",
                  VArray [VObject [("name", VString "a");
                                   ("size", VNumber (of_Z 7))];
                          VObject [("size", VNumber (of_Z 9))]])]
                [VObject [("name", VString "a"); ("size", VNumber (of_Z 7))];
                 VObject [("size", VNumber (of_Z 9))]]
                alone_manual) as [H _].
    + apply mount_settled.
    + reflexivity.
    + reflexivity.
    + reflexivity.
    + reflexivity.
    + destruct H as [-> _]; reflexivity.
  - destruct (model_names_extracted start_command
                (reachable
                   (VObject [("models",
                              VArray [VObject [("name", VString "a")];
                                      VNull])]))
                {| connected := true; connection_error := None |}
                [("models", VArray [VObject [("name", VString "a")]; VNull])]
                [VObject [("name", VString "a")]; VNull]
                alone_manual) as [_ H].
    + apply mount_settled.
    + reflexivity.
    + reflexivity.
    + reflexivity.
    + reflexivity.
    + destruct H as [-> _]; reflexivity.
Defined.

(** X6. When the first element of the array has no [name] and the
    working record has no model, the bootstrap still takes the first
    entry: the model of the working record becomes [undefined], so the
    record is no longer fully populated; and the bootstrap effect,
    which wants a model, reports nothing to the owner, auto-apply or
    not. *)
Theorem nameless_first_model
  (cmd : string) (net : network) (c : connection)
  (ps : list (string * value)) (first : value) (rest : list value)
  (w : World) :
  settled w -> checkOllamaConnection net = Ok c -> connected c = true ->
  fetchWithCORS net = Ok (Ok (VObject ps)) ->
  own_property "models" ps = Some (VArray (first :: rest)) ->
  forallb (fun m => negb (nullish m)) (first :: rest) = true ->
  name_of first = VUndefined ->
  truthy (model (working w)) = false ->
  let w' := fetchModels cmd net w in
  model (working w') = VUndefined
  /\ populated (working w') = false
  /\ settings w' = next w
  /\ pushes w' = pushes w
  /\ error w' = None.
Proof.
  intros Hs Hc Hd Ht Hm Hall Hn Hw w'.
  assert (Hf : fetch_models_list net = Ok (VUndefined :: map name_of rest)).
  { rewrite (fetch_models_list_array net c ps _ Hc Hd Ht Hm).
    rewrite (map_names (first :: rest) Hall). simpl. now rewrite Hn. }
  destruct (fetchModels_selects cmd net _ _ w Hs Hf Hw) as (Hset & _ & Hwk).
  fold w' in Hset, Hwk.
  destruct (fetchModels_success cmd net _ w Hs Hf)
    as (_ & _ & _ & _ & _ & He & _).
  assert (Hmodel : model (working w') = VUndefined) by now rewrite Hwk.
  split; [exact Hmodel|]. split; [|split; [exact Hset|split; [|exact He]]].
  - unfold populated. now rewrite Hmodel.
  - apply (fetchModels_pushes cmd net _ w Hs Hf). fold w'.
    now rewrite Hmodel.
Qed.

Lemma nameless_first_model_witness :
  model (working
           (fetchModels start_command
              (reachable (VObject [("models", VArray [VObject []])]))
              alone_auto))
  = VUndefined
  /\ pushes (fetchModels start_command
               (reachable (VObject [("models", VArray [VObject []])]))
               alone_auto) = [].
Proof.
  destruct (nameless_first_model start_command
              (reachable (VObject [("models", VArray [VObject []])]))
              {| connected := true; connection_error := None |}
              [("models", VArray [VObject []])] (VObject []) []
              alone_auto) as (H1 & _ & _ & H2 & _).
  - apply mount_settled.
  - reflexivity.
  - reflexivity.
  - reflexivity.
  - reflexivity.
  - reflexivity.
  - reflexivity.
  - reflexivity.
  - split; [exact H1 | rewrite H2; reflexivity].
Defined.

(** ** Renders by the owner *)

(** X7. No feedback: a render in which the owner supplies the working
    record itself (the record it was handed, fed back by reference)
    leaves the working record and calls nobody; and whatever settings
    object the owner supplies, if it carries a model the render does
    not call the owner. *)
Theorem no_feedback (p : Props) (w : World) (l : nat) :
  settled w -> initialSettings p = Some l ->
  (l = settings w ->
   settings (render p w) = settings w /\ pushes (render p w) = pushes w)
  /\ (truthy (model (read w l)) = true -> pushes (render p w) = pushes w).
Proof.
  intros Hs Hp. split.
  - intros ->. split.
    + rewrite render_settings, Hp. now destruct (sync_deps_eqb _ _).
    + rewrite render_pushes. destruct (bootstrap_deps_eqb _ _); trivial.
      now rewrite (effect_bootstrap_external p w (settings w)).
  - intros Hm. rewrite render_pushes.
    destruct (bootstrap_deps_eqb _ _); trivial.
    unfold effect_bootstrap, initial_model. rewrite Hp, Hm.
    now rewrite andb_false_r.
Qed.

Lemma no_feedback_witness :
  pushes (render {| onSettingsSave := 8; autoApply := true;
                    initialSettings := Some 1%nat |} alone_auto_a)
  = [(7, 1)]%nat
  /\ settings (render {| onSettingsSave := 8; autoApply := true;
                         initialSettings := Some 1%nat |} alone_auto_a)
     = 1%nat.
Proof.
  destruct (no_feedback {| onSettingsSave := 8; autoApply := true;
                           initialSettings := Some 1%nat |}
              alone_auto_a 1) as [H _].
  - apply render_settles.
  - reflexivity.
  - destruct H as [Hs Hp]; [reflexivity|]. split.
    + rewrite Hp. reflexivity.
    + rewrite Hs. reflexivity.
Defined.

(** X8. A render that differs from the previous one by the identity of
    [onSettingsSave] alone makes the bootstrap effect run again: in
    auto-apply mode, with a model in the working record and none in
    the external settings, the working record is reported once more, to
    the new function; the working record itself stays. *)
Theorem new_callback_reports_again (p : Props) (w : World) :
  settled w -> autoApply (props w) = true ->
  truthy (model (working w)) = true ->
  truthy (initial_model (props w) w) = false ->
  autoApply p = true -> initialSettings p = initialSettings (props w) ->
  onSettingsSave p <> onSettingsSave (props w) ->
  pushes (render p w) = pushes w ++ [(onSettingsSave p, settings w)]
  /\ settings (render p w) = settings w.
Proof.
  intros [Hb Hy] Ha Hm Hi Hap Hip Hne. split.
  - rewrite render_pushes, Hb.
    assert (Hinit : initial_model p w = initial_model (props w) w).
    { unfold initial_model. now rewrite Hip. }
    assert (E : bootstrap_deps_eqb (bootstrap_deps (props w) w)
                  (bootstrap_deps p w) = false).
    { unfold bootstrap_deps. simpl.
      assert (Hn : Nat.eqb (onSettingsSave (props w)) (onSettingsSave p)
                   = false).
      { apply Nat.eqb_neq. intros H. now apply Hne. }
      rewrite Hn. now rewrite andb_false_r. }
    rewrite E. unfold effect_bootstrap.
    now rewrite Hap, Hm, Hinit, Hi.
  - now rewrite render_settings, Hy, Hip, sync_deps_eqb_refl.
Qed.

Lemma new_callback_reports_again_witness :
  pushes (render new_callback_props alone_auto_a) = [(7, 1); (8, 1)]%nat.
Proof.
  destruct (new_callback_reports_again new_callback_props alone_auto_a)
    as [H _].
  - apply render_settles.
  - reflexivity.
  - reflexivity.
  - reflexivity.
  - reflexivity.
  - reflexivity.
  - discriminate.
  - rewrite H. reflexivity.
Defined.

(** ** Edits in auto-apply mode *)

(** X9. In auto-apply mode, the external settings carrying no model,
    picking a model other than the one of the working record reports
    the new record twice: once by the bootstrap effect in the update,
    and once more in the next animation frame, after the calls that
    were waiting. *)
Theorem model_pick_reports_twice (v : value) (w : World) :
  settled w -> allocated w -> autoApply (props w) = true ->
  truthy (initial_model (props w) w) = false ->
  truthy v = true -> value_eqb (model (working w)) v = false ->
  let w1 := dispatch (SelectModel v) w in
  let call := (onSettingsSave (props w), settings w1) in
  model (working w1) = v
  /\ pushes w1 = pushes w ++ [call]
  /\ pushes (animation_frame w1) = pushes w ++ [call] ++ frame_queue w ++ [call].
Proof.
  intros Hs Hal Ha Hi Hv Hne. cbv zeta.
  rewrite (dispatch_edit (SelectModel v) Fmodel v w eq_refl).
  destruct (edit_settings Fmodel v w Hs) as (Hset & Hw & _ & _ & _ & Hq).
  rewrite Ha in Hq.
  set (h := handleSettingChange Fmodel v w) in *.
  pose proof (handleSettingChange_fields Fmodel v w)
    as (_ & _ & Hsh & _ & Hm & _ & Hpush & _).
  fold h in Hsh, Hm, Hpush.
  assert (Hwh : working h = spread_with (working w) Fmodel v)
    by apply working_handleSettingChange.
  assert (Hih : initial_model (props w) h = initial_model (props w) w)
    by now apply initial_model_edit.
  assert (Hp : pushes (render (props w) h)
               = pushes w ++ [(onSettingsSave (props w), next w)]).
  { rewrite render_pushes, Hm, (proj1 Hs).
    assert (E : bootstrap_deps_eqb (bootstrap_deps (props w) w)
                  (bootstrap_deps (props w) h) = false).
    { unfold bootstrap_deps. rewrite Hwh. simpl. rewrite Hne.
      now rewrite andb_false_r. }
    rewrite E. unfold effect_bootstrap.
    rewrite Hwh, Hih, Ha, Hi. simpl. rewrite Hv. simpl.
    now rewrite Hpush, Hsh. }
  rewrite Hw, Hset. split; [reflexivity|]. split; [exact Hp|].
  unfold animation_frame. simpl. rewrite Hp, Hq.
  now rewrite <- !app_assoc.
Qed.

Lemma model_pick_reports_twice_witness :
  pushes (animation_frame (dispatch (SelectModel (VString "b")) alone_auto_a))
  = [(7, 1); (7, 2); (7, 2)]%nat.
Proof.
  destruct (model_pick_reports_twice (VString "b") alone_auto_a)
    as (_ & _ & H).
  - apply render_settles.
  - vm_compute. split; [lia | exact I].
  - reflexivity.
  - reflexivity.
  - reflexivity.
  - reflexivity.
  - rewrite H. reflexivity.
Defined.

Lemma keeps_model_edit (ev : event) :
  keeps_model ev = true ->
  exists (f : field) (v : field_type f),
    edit_of ev = Some (existT f v) /\ f <> Fmodel.
Proof.
  destruct ev; simpl; try discriminate; intros _.
  - exists Ftemperature, v. now split.
  - exists FtopP, v. now split.
  - exists FuseFixedSeed, checked. now split.
  - exists Fseed, (Number text). now split.
  - exists FnumCtx, (Number text). now split.
Qed.

(** One edit that keeps the model, in auto-apply mode. *)
Lemma edit_step_auto (ev : event) (w : World) :
  settled w -> allocated w -> autoApply (props w) = true ->
  keeps_model ev = true ->
  let w1 := dispatch ev w in
  settled w1 /\ allocated w1 /\ props w1 = props w
  /\ next w1 = S (next w)
  /\ working w1 = edit_record ev (working w)
  /\ read w1 (next w) = edit_record ev (working w)
  /\ pushes w1 = pushes w
  /\ frame_queue w1 = frame_queue w ++ [(onSettingsSave (props w), next w)].
Proof.
  intros Hs Hal Ha Hk. cbv zeta.
  destruct (keeps_model_edit ev Hk) as (f & v & He & Hf).
  unfold edit_record. rewrite He, (dispatch_edit ev f v w He).
  destruct (edit_settings f v w Hs) as (Hset & Hw & Hh & Hn & Hp & Hq).
  rewrite Ha in Hq.
  set (h := handleSettingChange f v w) in *.
  pose proof (handleSettingChange_fields f v w)
    as (_ & Hnh & Hsh & Hph & Hm & _ & Hpush & _).
  fold h in Hnh, Hsh, Hph, Hm, Hpush.
  split; [apply render_settles|]. split.
  { destruct Hal as [Hlt Hext]. apply render_allocated.
    - rewrite Hnh. destruct (initialSettings (props w)); trivial. lia.
    - rewrite Hnh, Hsh. lia. }
  split; [exact Hp|]. split; [exact Hn|]. split; [exact Hw|]. split.
  { unfold read. rewrite Hh. apply lookup_total_insert_eq. }
  split; [|exact Hq].
  rewrite render_pushes, Hm, (proj1 Hs).
  assert (E : bootstrap_deps (props w) h = bootstrap_deps (props w) w).
  { unfold bootstrap_deps, h.
    rewrite (initial_model_edit f v w Hal).
    rewrite working_handleSettingChange.
    change (model (spread_with (working w) f v))
      with (get Fmodel (spread_with (working w) f v)).
    rewrite get_spread_other by (intros X; now apply Hf).
    reflexivity. }
  now rewrite E, bootstrap_deps_eqb_refl.
Qed.

Lemma dispatch_all_preserves (evs : list event) (w : World) (l : nat) :
  (l < next w)%nat -> read (dispatch_all evs w) l = read w l.
Proof.
  revert w. induction evs as [|ev evs IH]; intros w Hl; simpl; trivial.
  destruct (step_preserves_objects "" (User ev) w l Hl) as [Hr Hn].
  simpl in Hr, Hn.
  fold (dispatch_all evs (dispatch ev w)).
  rewrite IH by lia. exact Hr.
Qed.

(** X10. In auto-apply mode edits that keep the model compose: after a
    series of them the working record is the first record with the
    edits applied in order, the owner has not been called, and one call
    per edit is waiting, in the order of the edits, the call of an edit
    carrying the record as it was just after that edit.  The owner is
    thus handed every intermediate record, not only the last one. *)
Theorem edits_queue_in_order (evs : list event) (w : World) :
  settled w -> allocated w -> autoApply (props w) = true ->
  forallb keeps_model evs = true ->
  let w' := dispatch_all evs w in
  working w' = fold_left (fun r ev => edit_record ev r) evs (working w)
  /\ pushes w' = pushes w
  /\ frame_queue w' =
     frame_queue w
     ++ map (fun i => (onSettingsSave (props w), (next w + i)%nat))
          (seq 0 (length evs))
  /\ (forall i, (i < length evs)%nat ->
        read w' (next w + i)
        = fold_left (fun r ev => edit_record ev r) (firstn (S i) evs)
            (working w)).
Proof.
  revert w. induction evs as [|ev evs IH]; intros w Hs Hal Ha Hk.
  - simpl. rewrite app_nil_r. repeat split. intros i Hi. simpl in Hi. lia.
  - simpl in Hk. apply andb_true_iff in Hk as [Hk1 Hk2].
    destruct (edit_step_auto ev w Hs Hal Ha Hk1)
      as (Hs1 & Hal1 & Hp1 & Hn1 & Hw1 & Hr1 & Hpush1 & Hq1).
    assert (Ha1 : autoApply (props (dispatch ev w)) = true)
      by now rewrite Hp1.
    destruct (IH (dispatch ev w) Hs1 Hal1 Ha1 Hk2) as (I1 & I2 & I3 & I4).
    cbv zeta in *. simpl dispatch_all.
    fold (dispatch_all evs (dispatch ev w)).
    split; [|split; [|split]].
    + simpl. now rewrite I1, Hw1.
    + now rewrite I2.
    + rewrite I3, Hq1, Hp1, Hn1, <- app_assoc. f_equal. simpl.
      rewrite Nat.add_0_r. f_equal.
      rewrite <- List.seq_shift, List.map_map.
      apply List.map_ext. intros i. f_equal. lia.
    + intros [|i] Hi.
      * rewrite Nat.add_0_r, dispatch_all_preserves by lia.
        simpl. exact Hr1.
      * simpl in Hi. replace (next w + S i)%nat
          with (next (dispatch ev w) + i)%nat by lia.
        rewrite I4 by lia.
        change (firstn (S (S i)) (ev :: evs)) with (ev :: firstn (S i) evs).
        simpl. now rewrite Hw1.
Qed.

Lemma edits_queue_in_order_witness :
  frame_queue (dispatch_all
                 [TypeNumCtx "4096"; SlideTemperature (decimal false 15 (-1));
                  CheckFixedSeed true; TypeSeed "7"]
                 alone_auto)
  = [(7, 1); (7, 2); (7, 3); (7, 4)]%nat
  /\ numCtx (read (dispatch_all
                    [TypeNumCtx "4096";
                     SlideTemperature (decimal false 15 (-1));
                     CheckFixedSeed true; TypeSeed "7"]
                    alone_auto) 1) = of_Z 4096
  /\ temperature (read (dispatch_all
                    [TypeNumCtx "4096";
                     SlideTemperature (decimal false 15 (-1));
                     CheckFixedSeed true; TypeSeed "7"]
                    alone_auto) 1) = decimal false 7 (-1).
Proof.
  destruct (edits_queue_in_order
              [TypeNumCtx "4096"; SlideTemperature (decimal false 15 (-1));
               CheckFixedSeed true; TypeSeed "7"]
              alone_auto) as (_ & _ & Hq & Hr).
  - apply mount_settled.
  - now apply mount_allocated.
  - reflexivity.
  - reflexivity.
  - split; [rewrite Hq; reflexivity|].
    specialize (Hr 0%nat ltac:(simpl; lia)).
    change (next alone_auto + 0)%nat with 1%nat in Hr.
    rewrite Hr. split; vm_compute; reflexivity.
Defined.

(** ** Texts typed into the numeric fields *)

Lemma trim_start_blank (l : list ascii) :
  forallb is_white_space l = true -> trim_start l = [].
Proof.
  induction l as [|c r IH]; simpl; trivial.
  intros H. apply andb_true_iff in H as [-> Hr]. now apply IH.
Qed.

Lemma Number_blank (text : string) :
  blank text = true -> Number text = of_Z 0.
Proof.
  unfold blank, Number, trim. intros H.
  now rewrite (trim_start_blank _ H).
Qed.

Lemma numeral_chars_digits (d : Decimal.uint) :
  forallb digit_char (numeral_chars d) = true.
Proof. induction d; simpl; trivial. Qed.

Lemma digit_not_white_space (c : ascii) :
  digit_char c = true -> is_white_space c = false.
Proof.
  unfold digit_char, is_white_space.
  generalize (nat_of_ascii c). intros n H.
  apply andb_true_iff in H as [H1 H2].
  apply Nat.leb_le in H1, H2.
  repeat match goal with
  | |- context [(?a <=? ?b)%nat] => destruct (Nat.leb_spec a b)
  | |- context [(?a =? ?b)%nat] => destruct (Nat.eqb_spec a b)
  end; simpl; trivial; lia.
Qed.

Lemma trim_start_digit (l : list ascii) :
  match l with c :: _ => digit_char c = true | [] => True end ->
  trim_start l = l.
Proof.
  destruct l as [|c r]; simpl; trivial.
  intros H. now rewrite (digit_not_white_space c H).
Qed.

Lemma trim_digits (l : list ascii) :
  forallb digit_char l = true -> trim l = l.
Proof.
  intros H. unfold trim.
  rewrite (trim_start_digit l).
  - rewrite trim_start_digit; [apply rev_involutive|].
    assert (Hr : forallb digit_char (rev l) = true).
    { apply forallb_forall. intros c Hc. apply in_rev in Hc.
      revert c Hc. now apply forallb_forall. }
    destruct (rev l); [trivial|]. simpl in Hr.
    now apply andb_true_iff in Hr as [-> _].
  - destruct l; [trivial|]. simpl in H.
    now apply andb_true_iff in H as [-> _].
Qed.

Lemma read_numeral (d : Decimal.uint) (acc : nat) (count : Z) :
  read_digits 10 (numeral_chars d) (Z.of_nat acc) count
  = (Z.of_nat (Nat.of_uint_acc d acc),
     count + Z.of_nat (Decimal.nb_digits d), []).
Proof.
  revert acc count.
  induction d as [|d IH|d IH|d IH|d IH|d IH|d IH|d IH|d IH|d IH|d IH];
    intros acc count;
    [simpl; f_equal; f_equal; lia|..];
    unfold numeral_chars;
    cbn [DecimalString.NilEmpty.string_of_uint list_ascii_of_string];
    fold (numeral_chars d);
    cbn [read_digits];
    match goal with
    | |- context [digit_value 10 ?c] =>
        let v := eval vm_compute in (digit_value 10 c) in
        change (digit_value 10 c) with v
    end;
    cbn iota; cbn [Nat.of_uint_acc Decimal.nb_digits];
    match goal with
    | |- read_digits 10 _ ?a _ = (Z.of_nat (Nat.of_uint_acc _ ?b), _, _) =>
        replace a with (Z.of_nat b)
          by (rewrite Nat.tail_mul_spec; lia)
    end;
    rewrite IH; f_equal; f_equal; lia.
Qed.

Lemma Number_numeral (d : Decimal.uint) :
  d <> Decimal.Nil ->
  Number (DecimalString.NilEmpty.string_of_uint d) = of_Z (Z.of_nat (Nat.of_uint d)).
Proof.
  intros Hd. unfold Number.
  fold (numeral_chars d).
  rewrite (trim_digits _ (numeral_chars_digits d)).
  assert (Hstr : match numeral_chars d with
                 | [] => of_Z 0
                 | ("0"%char :: p :: r) as l =>
                     if Ascii.eqb p "x" || Ascii.eqb p "X"
                     then non_decimal_integer 16 r
                     else if Ascii.eqb p "o" || Ascii.eqb p "O"
                     then non_decimal_integer 8 r
                     else if Ascii.eqb p "b" || Ascii.eqb p "B"
                     then non_decimal_integer 2 r
                     else str_decimal_literal l
                 | l => str_decimal_literal l
                 end = str_decimal_literal (numeral_chars d)).
  { destruct d as [|d|d|d|d|d|d|d|d|d|d]; try contradiction;
      try reflexivity.
    destruct d; reflexivity. }
  rewrite Hstr. unfold str_decimal_literal.
  assert (Hsign : read_sign (numeral_chars d) = (false, numeral_chars d)).
  { destruct d; try contradiction; reflexivity. }
  rewrite Hsign.
  assert (Hinf : String.eqb (string_of_list_ascii (numeral_chars d))
                   "Infinity" = false).
  { destruct d; try contradiction; reflexivity. }
  rewrite Hinf.
  change 0 with (Z.of_nat 0) at 1.
  rewrite read_numeral.
  fold (Nat.of_uint d).
  assert (Hn : Decimal.nb_digits d <> 0%nat).
  { intros H. now apply DecimalFacts.nb_digits_0 in H. }
  assert (Hc : (0 + Z.of_nat (Decimal.nb_digits d) + 0 =? 0) = false).
  { apply Z.eqb_neq. lia. }
  rewrite Hc. simpl read_exponent. cbv iota.
  unfold decimal, of_Z.
  replace (0 - 0) with 0 by lia. simpl (0 <=? 0). cbv iota.
  replace (Z.of_nat (Nat.of_uint d) * 10 ^ 0) with (Z.of_nat (Nat.of_uint d))
    by lia.
  assert (Hlt : (Z.of_nat (Nat.of_uint d) <? 0) = false)
    by (apply Z.ltb_ge; lia).
  rewrite Hlt. now rewrite Z.abs_eq by lia.
Qed.

Lemma Number_decimal_text (n : nat) :
  Number (decimal_text n) = of_Z (Z.of_nat n).
Proof.
  unfold decimal_text.
  assert (Hd : Nat.to_uint n <> Decimal.Nil).
  { rewrite <- (DecimalNat.Unsigned.of_to n) at 1.
    rewrite DecimalNat.Unsigned.to_of. unfold Decimal.unorm.
    destruct (Decimal.nzhead _); discriminate. }
  assert (Hs : DecimalString.NilZero.string_of_uint (Nat.to_uint n)
               = DecimalString.NilEmpty.string_of_uint (Nat.to_uint n)).
  { destruct (Nat.to_uint n); [contradiction | reflexivity..]. }
  rewrite Hs, (Number_numeral _ Hd).
  now rewrite DecimalNat.Unsigned.of_to.
Qed.

(** X11. Typing the decimal numeral of a natural number into the
    context-size field or into the seed field stores that number (as
    the double nearest to it) in the field of the working record. *)
Theorem numeral_sets_number (n : nat) (w : World) :
  settled w ->
  numCtx (working (dispatch (TypeNumCtx (decimal_text n)) w))
  = of_Z (Z.of_nat n)
  /\ seed (working (dispatch (TypeSeed (decimal_text n)) w))
     = of_Z (Z.of_nat n).
Proof.
  intros Hs. split.
  - rewrite (dispatch_edit (TypeNumCtx (decimal_text n)) FnumCtx
               (Number (decimal_text n)) w eq_refl).
    destruct (edit_settings FnumCtx (Number (decimal_text n)) w Hs)
      as (_ & -> & _).
    simpl. apply Number_decimal_text.
  - rewrite (dispatch_edit (TypeSeed (decimal_text n)) Fseed
               (Number (decimal_text n)) w eq_refl).
    destruct (edit_settings Fseed (Number (decimal_text n)) w Hs)
      as (_ & -> & _).
    simpl. apply Number_decimal_text.
Qed.

Lemma numeral_sets_number_witness :
  numCtx (working (dispatch (TypeNumCtx "4096") alone_manual)) = of_Z 4096.
Proof.
  destruct (numeral_sets_number 4096 alone_manual) as [H _].
  - apply mount_settled.
  - exact H.
Defined.

(** X12. Nothing checks the numeric fields: a context-size field or a
    seed field left empty, or holding white space only, stores 0 in the
    working record; for the context size this is below every positive
    size, and in auto-apply mode the record goes to the owner like any
    other. *)
Theorem blank_sets_zero (text : string) (w : World) :
  settled w -> blank text = true ->
  numCtx (working (dispatch (TypeNumCtx text) w)) = of_Z 0
  /\ seed (working (dispatch (TypeSeed text) w)) = of_Z 0
  /\ number_leb (of_Z 1)
       (numCtx (working (dispatch (TypeNumCtx text) w))) = false
  /\ (autoApply (props w) = true ->
      frame_queue (dispatch (TypeNumCtx text) w)
      = frame_queue w ++ [(onSettingsSave (props w), next w)]).
Proof.
  intros Hs Hb.
  pose proof (Number_blank text Hb) as Hn.
  rewrite (dispatch_edit (TypeNumCtx text) FnumCtx (Number text) w eq_refl).
  rewrite (dispatch_edit (TypeSeed text) Fseed (Number text) w eq_refl).
  destruct (edit_settings FnumCtx (Number text) w Hs)
    as (_ & Hw1 & _ & _ & _ & Hq).
  destruct (edit_settings Fseed (Number text) w Hs) as (_ & Hw2 & _).
  cbv zeta in Hw1, Hw2, Hq. rewrite Hw1, Hw2, Hq.
  cbn [spread_with numCtx seed]. rewrite Hn.
  split; [reflexivity|]. split; [reflexivity|]. split; [reflexivity|].
  now intros ->.
Qed.

Lemma blank_sets_zero_witness :
  numCtx (working (dispatch (TypeNumCtx "  ") alone_auto)) = of_Z 0
  /\ frame_queue (dispatch (TypeNumCtx "  ") alone_auto) = [(7, 1)]%nat.
Proof.
  destruct (blank_sets_zero "  " alone_auto) as (H1 & _ & _ & H2).
  - apply mount_settled.
  - reflexivity.
  - split; [exact H1 | now apply H2].
Defined.

(** ** Renders come to rest *)

Lemma render_pass_settled (w : World) :
  settled w -> render_pass (props w) w = w.
Proof.
  intros [Hb Hy]. unfold render_pass.
  rewrite <- Hb, <- Hy, bootstrap_deps_eqb_refl, sync_deps_eqb_refl.
  now destruct w.
Qed.

(** X13. The effects cannot keep the panel rendering: whatever the
    state and the props, after the render of a step (with the second
    one that the sync effect may cause) a further render with the same
    props changes nothing at all: no state, no call of the owner. *)
Theorem render_comes_to_rest (p : Props) (w : World) :
  render p (render p w) = render p w.
Proof.
  pose proof (render_settles p w) as Hs.
  destruct (render_keeps p w) as (_ & _ & Hp & _).
  remember (render p w) as w1 eqn:E. clear E. subst p.
  unfold render. rewrite (render_pass_settled w1 Hs).
  now rewrite Nat.eqb_refl.
Qed.

(** ** A fetch that selects nothing *)

(** X14. A fetch that succeeds while the working record has a model
    (supplied by the owner, or picked before), or that brings an empty
    list, is silent towards the owner in every mode: the working record
    stays the same object, nothing is reported and nothing is queued;
    only the menu changes. *)
Theorem fetch_without_selection_is_silent
  (cmd : string) (net : network) (models : list value) (w : World) :
  settled w -> fetch_models_list net = Ok models ->
  models = [] \/ truthy (model (working w)) = true ->
  let w' := fetchModels cmd net w in
  settings w' = settings w /\ pushes w' = pushes w
  /\ frame_queue w' = frame_queue w
  /\ menu_of w' = MenuModels models.
Proof.
  intros Hs Hnet Hor w'.
  destruct (fetchModels_keeps cmd net models w Hs Hnet Hor)
    as (Hset & _ & Hw).
  destruct (fetchModels_success cmd net models w Hs Hnet)
    as (_ & _ & _ & _ & Ha & He & Hl & Hq & _).
  fold w' in Hset, Hw, Ha, He, Hl, Hq.
  split; [exact Hset|]. split; [|split; [exact Hq|]].
  - unfold w', fetchModels. rewrite Hnet.
    set (wa := setError None (setAvailableModels models w)).
    assert (Hc : (0 <? length models)%nat
                 && negb (truthy (model (working wa))) = false).
    { change (working wa) with (working w).
      destruct Hor as [-> | ->]; [reflexivity | apply andb_false_r]. }
    rewrite (select_first_model_unchanged models wa Hc).
    rewrite render_pushes.
    change (memo_bootstrap (setLoading false wa)) with (memo_bootstrap w).
    change (bootstrap_deps (props w) (setLoading false wa))
      with (bootstrap_deps (props w) w).
    now rewrite (proj1 Hs), bootstrap_deps_eqb_refl.
  - unfold menu_of. now rewrite Hl, He, Ha.
Qed.

Lemma fetch_without_selection_is_silent_witness :
  pushes (fetchModels start_command (reachable models_a_b)
            (mount (fed_props true) {[0%nat := llama3_settings]} 1)) = []
  /\ settings (fetchModels start_command (reachable models_a_b)
                 (mount (fed_props true) {[0%nat := llama3_settings]} 1))
     = 0%nat.
Proof.
  destruct (fetch_without_selection_is_silent start_command
              (reachable models_a_b) [VString "a"; VString "b"]
              (mount (fed_props true) {[0%nat := llama3_settings]} 1))
    as (Hs & Hp & _).
  - apply mount_settled.
  - reflexivity.
  - right. reflexivity.
  - split; [rewrite Hp | rewrite Hs]; reflexivity.
Defined.
